(** * advanced-cv: gesture and state classification layer

    A shallow embedding of the pure logic of the webcam demos:

    - [Main.countFingers] (main.py), [VirtualMouse.countFingers]
      (VirtualMouse.py) and [VirtualPainter.fingersUpFromLm]
      (VirtualPainter.py): the three finger classifiers;
    - the per-frame body of [run_virtual_painter] (VirtualPainter.py):
      mode selection, header buttons and the stroke accumulator;
    - the angle normalisation and the curl counter of
      [PoseDetector.findAngle] (PoseModule.py).

    Pixel coordinates are Python ints ([Z]); a landmark list is a list of
    [[id, x, y]] triples; the [id -> (x, y)] dictionaries are [gmap]s;
    Python exceptions are the [Raise] case of [result].  The MediaPipe
    detector, the camera and the OpenCV windows are outside the model: a
    frame enters as the landmark list and the handedness data the detector
    produced for it. *)

From Stdlib Require Import ZArith QArith Ascii String List Lia Lqa.
From stdpp Require Import base option list gmap strings.

Local Open Scope Z_scope.

(** ** Python exceptions as an error monad *)

Inductive exn : Type :=
| KeyError (k : Z)
| IndexError
| ZeroDivisionError.

Inductive result (A : Type) : Type :=
| Ok (a : A)
| Raise (e : exn).

Arguments Ok {A} a.
Arguments Raise {A} e.

#[global] Instance result_ret : MRet result := λ A a, Ok a.

#[global] Instance result_bind : MBind result := λ A B k r,
  match r with
  | Ok a => k a
  | Raise e => Raise e
  end.

(** A [for] loop whose body may raise: the first exception ends the loop. *)
Fixpoint for_each {A S : Type} (body : S → A → result S) (xs : list A) (s : S)
  : result S :=
  match xs with
  | [] => Ok s
  | x :: xs' => s' ← body s x; for_each body xs' s'
  end.

(** [a and b] with Python's short circuit: [b] is evaluated, and may raise,
    only when [a] is true. *)
Definition py_and (a b : result bool) : result bool :=
  a ≫= λ x : bool, if x then b else Ok false.

(** [l[i]] on a list, for an index that is not negative. *)
Definition list_getitem {A : Type} (l : list A) (i : nat) : result A :=
  match l !! i with
  | Some a => Ok a
  | None => Raise IndexError
  end.

(** [a // b] on ints: floor division, [ZeroDivisionError] when [b] is 0. *)
Definition floordiv (a b : Z) : result Z :=
  if b =? 0 then Raise ZeroDivisionError else Ok (a / b).

(** ** Landmarks *)

(** One entry [[id, cx, cy]] of a landmark list. *)
Definition Landmark : Type := Z * Z * Z.

(** [{item[0]: (item[1], item[2]) for item in lmList}]: a later entry with
    the same id replaces an earlier one. *)
Definition lm_dict (lmList : list Landmark) : gmap Z (Z * Z) :=
  foldl (λ d '(id, x, y), <[id := (x, y)]> d) ∅ lmList.

(** [lm[k]] on the dictionary. *)
Definition dict_getitem (lm : gmap Z (Z * Z)) (k : Z) : result (Z * Z) :=
  match lm !! k with
  | Some v => Ok v
  | None => Raise (KeyError k)
  end.

(** [k in lm]. *)
Definition dict_contains (lm : gmap Z (Z * Z)) (k : Z) : bool :=
  bool_decide (is_Some (lm !! k)).

(** ** Handedness *)

(** What the classifiers read of [results.multi_handedness]: per hand, the
    labels of its [classification] entries.  [None] for [results] stands for
    a missing or falsy [results]; an empty list for a missing or empty
    [multi_handedness]. *)
Record Handedness : Type := { classification : list string }.
Record Results : Type := { multi_handedness : list Handedness }.

(** The [try] block shared by the three classifiers: any exception (an index
    out of range) leaves [handType = None]. *)
Definition get_handType (results : option Results) (handNo : nat)
  : option string :=
  match results with
  | Some r =>
      match multi_handedness r with
      | [] => None
      | mh =>
          match mh !! handNo with
          | Some h => classification h !! 0%nat
          | None => None
          end
      end
  | None => None
  end.

(** [handType == "Right"]. *)
Definition is_Right (handType : option string) : bool :=
  bool_decide (handType = Some "Right"%string).

(** [1 if c else 0]. *)
Definition bit (c : bool) : Z := if c then 1 else 0.

(** [sum(fingers)]. *)
Definition sum (fingers : list Z) : Z := foldr Z.add 0 fingers.

Definition tipIds : list Z := [4; 8; 12; 16; 20].

(** ** HandTrackingModule.py *)

(** Exceptions of library calls that the classifiers never meet: the
    [ValueError] of [min] and [max] on an empty list and of MediaPipe's
    [draw_landmarks] on a hand that lacks a landmark, and the [cv2.error]
    of an OpenCV call on a missing image or on two images of different
    sizes. *)
Inductive lib_exn : Type :=
| Py (e : exn)
| ValueError
| Cv2Error.

Inductive outcome (A : Type) : Type :=
| Done (a : A)
| Fails (e : lib_exn).

Arguments Done {A} a.
Arguments Fails {A} e.

(** [min(xs)] and [max(xs)]; [None] is the [ValueError] on an empty list. *)
Definition py_min (xs : list Z) : option Z :=
  match xs with
  | [] => None
  | x :: xs' => Some (foldl Z.min x xs')
  end.

Definition py_max (xs : list Z) : option Z :=
  match xs with
  | [] => None
  | x :: xs' => Some (foldl Z.max x xs')
  end.

(** [l[i]] on a list, for any int: a negative index counts from the end;
    [None] is the [IndexError]. *)
Definition list_getitem_int {A : Type} (l : list A) (i : Z) : option A :=
  let j := if i <? 0 then Z.of_nat (length l) + i else i in
  if j <? 0 then None else l !! Z.to_nat j.

Module HandTrackingModule.

(** [HandDetector.findHands] with [draw] set, as both demos call it, on
    what the detector found.  [draw_landmarks] raises [ValueError] for a
    hand that lacks a landmark named by [HAND_CONNECTIONS], which names the
    landmarks 0 to 20; the image it draws on is not modelled. *)
Definition findHands (multi_hand_landmarks : list (list (Z * Z)))
  : outcome unit :=
  if forallb (λ hand : list (Z * Z), 21 <=? Z.of_nat (length hand))
       multi_hand_landmarks
  then Done tt else Fails ValueError.

(** [HandDetector.findPosition] on what [findHands] stored.  A hand is the
    list of the pixel positions [(int(lm.x * w), int(lm.y * h))] of its
    landmarks, in the detector's order; [multi_hand_landmarks] is empty when
    it is [None] or has no hand.  The returned [bbox] is [None] for the
    empty list [[]] and [Some (xmin, ymin, xmax, ymax)] for the tuple.  The
    rectangle drawn on the image when [draw] is set is not part of the
    result and is left out. *)
Definition findPosition (multi_hand_landmarks : list (list (Z * Z)))
    (handNo : Z) : outcome (list Landmark * option (Z * Z * Z * Z)) :=
  match multi_hand_landmarks with
  | [] => Done ([], None)
  | _ =>
      match list_getitem_int multi_hand_landmarks handNo with
      | None => Fails (Py IndexError)
      | Some myHand =>
          let lmList : list Landmark :=
            imap (λ id '(cx, cy), (Z.of_nat id, cx, cy)) myHand in
          match py_min ((λ x : Landmark, x.1.2) <$> lmList),
                py_max ((λ x : Landmark, x.1.2) <$> lmList),
                py_min ((λ x : Landmark, x.2) <$> lmList),
                py_max ((λ x : Landmark, x.2) <$> lmList) with
          | Some xmin, Some xmax, Some ymin, Some ymax =>
              Done (lmList, Some (xmin, ymin, xmax, ymax))
          | _, _, _, _ => Fails ValueError
          end
      end
  end.

End HandTrackingModule.

(** ** Camera frames and keys *)

(** What one pass of a demo's loop gets from the outside: whether
    [cap.read()] succeeded, the frame's height and width ([img.shape], a
    colour frame of three channels), what the hand detector and the pose
    detector find in the frame (pixel positions, and the hands' handedness
    data), and the value of [cv2.waitKey(1)].  The key is only read on
    passes that get that far. *)
Record Tick : Type := {
  success : bool;
  height : Z;
  width : Z;
  multi_hand_landmarks : list (list (Z * Z));
  hand_results : option Results;
  pose_landmarks : list (Z * Z);
  waitKey : Z
}.

(** [ord(c)]. *)
Definition ord (c : Ascii.ascii) : Z := Z.of_N (Ascii.N_of_ascii c).

(** [cv2.waitKey(1) & 0xFF]. *)
Definition pressed (t : Tick) : Z := Z.land (waitKey t) 255.

(** Where a loop stands after a finite run of passes: still looping, left
    with a return value and with the passes it did not consume, or ended by
    an exception. *)
Inductive session (R S : Type) : Type :=
| Running (s : S)
| Returned (res : R) (s : S) (rest : list Tick)
| Crashed (e : lib_exn).

Arguments Running {R S} s.
Arguments Returned {R S} res s rest.
Arguments Crashed {R S} e.

(** ** main.py *)

Module Main.

(** [countFingers] after [lmList, bbox = detector.findPosition(...)]: the
    landmark list is the argument.  No membership test guards the
    dictionary reads. *)
Definition countFingers (lmList : list Landmark) (results : option Results)
    (handNo : nat) : result (Z * list Z) :=
  match lmList with
  | [] => Ok (0, [])
  | _ =>
      let lm := lm_dict lmList in
      let fingers : list Z := [] in
      let handType := get_handType results handNo in
      fingers ←
        (if is_Right handType then
           tip ← dict_getitem lm 4;
           ip ← dict_getitem lm 3;
           Ok (fingers ++ [bit (tip.1 <? ip.1)])
         else
           tip ← dict_getitem lm 4;
           ip ← dict_getitem lm 3;
           Ok (fingers ++ [bit (tip.1 >? ip.1)]));
      fingers ←
        for_each
          (λ fingers tipId,
             tip ← dict_getitem lm tipId;
             pip ← dict_getitem lm (tipId - 2);
             Ok (fingers ++ [bit (tip.2 <? pip.2)]))
          (tail tipIds) fingers;
      let total := sum fingers in
      Ok (total, fingers)
  end.

End Main.

(** ** VirtualMouse.py *)

Module VirtualMouse.

(** [countFingers]: every dictionary read is guarded by [in lm]. *)
Definition countFingers (lmList : list Landmark) (results : option Results)
    (handNo : nat) : result (Z * list Z) :=
  match lmList with
  | [] => Ok (0, [])
  | _ =>
      let lm := lm_dict lmList in
      let fingers : list Z := [] in
      let handType := get_handType results handNo in
      fingers ←
        (if dict_contains lm 4 && dict_contains lm 3 then
           if is_Right handType then
             tip ← dict_getitem lm 4;
             ip ← dict_getitem lm 3;
             Ok (fingers ++ [bit (tip.1 <? ip.1)])
           else
             tip ← dict_getitem lm 4;
             ip ← dict_getitem lm 3;
             Ok (fingers ++ [bit (tip.1 >? ip.1)])
         else Ok (fingers ++ [0]));
      fingers ←
        for_each
          (λ fingers tipId,
             let pipId := tipId - 2 in
             if dict_contains lm tipId && dict_contains lm pipId then
               tip ← dict_getitem lm tipId;
               pip ← dict_getitem lm pipId;
               Ok (fingers ++ [bit (tip.2 <? pip.2)])
             else Ok (fingers ++ [0]))
          (tail tipIds) fingers;
      let total := sum fingers in
      Ok (total, fingers)
  end.

(** The loop of [run_virtual_mouse].  The state is what has been printed:
    one [(fingers, total)] per pass on which a hand was seen. *)
Fixpoint mouse_loop (ticks : list Tick) (printed : list (list Z * Z))
  : session string (list (list Z * Z)) :=
  match ticks with
  | [] => Running printed
  | t :: rest =>
      if negb (success t) then Returned "back"%string printed rest
      else
        match HandTrackingModule.findHands (multi_hand_landmarks t) with
        | Fails e => Crashed e
        | Done _ =>
            match HandTrackingModule.findPosition (multi_hand_landmarks t) 0
            with
            | Fails e => Crashed e
            | Done (lmList, bbox) =>
                match countFingers lmList (hand_results t) 0 with
                | Raise e => Crashed (Py e)
                | Ok (total, fingers) =>
                    let printed :=
                      match fingers with
                      | [] => printed
                      | _ => printed ++ [(fingers, total)]
                      end in
                    let key := pressed t in
                    if key =? ord "b"%char then
                      Returned "back"%string printed rest
                    else if key =? ord "q"%char then
                      Returned "quit"%string printed rest
                    else mouse_loop rest printed
                end
            end
        end
  end.

Definition run_virtual_mouse (ticks : list Tick)
  : session string (list (list Z * Z)) :=
  mouse_loop ticks [].

End VirtualMouse.

(** ** VirtualPainter.py *)

Module VirtualPainter.

(** [enumerate(xs, start=n)]. *)
Definition enumerate_from {A : Type} (start : nat) (xs : list A)
  : list (nat * A) :=
  zip (seq start (length xs)) xs.

(** [fingersUpFromLm]: the vector starts as five zeros and an entry is
    overwritten only when both of its landmarks are in the dictionary. *)
Definition fingersUpFromLm (lmList : list Landmark) (results : option Results)
    (handNo : nat) : result (list Z) :=
  let tips := tipIds in
  let fingers : list Z := [0; 0; 0; 0; 0] in
  match lmList with
  | [] => Ok fingers
  | _ =>
      let lm_dict := lm_dict lmList in
      let handType := get_handType results handNo in
      fingers ←
        (if dict_contains lm_dict 4 && dict_contains lm_dict 3 then
           if is_Right handType then
             tip ← dict_getitem lm_dict 4;
             ip ← dict_getitem lm_dict 3;
             Ok (<[0%nat := bit (tip.1 <? ip.1)]> fingers)
           else
             tip ← dict_getitem lm_dict 4;
             ip ← dict_getitem lm_dict 3;
             Ok (<[0%nat := bit (tip.1 >? ip.1)]> fingers)
         else Ok fingers);
      for_each
        (λ fingers '(i, tipId),
           let pipId := tipId - 2 in
           if dict_contains lm_dict tipId && dict_contains lm_dict pipId then
             tip ← dict_getitem lm_dict tipId;
             pip ← dict_getitem lm_dict pipId;
             Ok (<[i := bit (tip.2 <? pip.2)]> fingers)
           else Ok fingers)
        (enumerate_from 1 (tail tips)) fingers
  end.

(** *** The painter's state *)

Definition Color : Type := Z * Z * Z.

(** One [cv2.line(imgCanvas, pt1, pt2, color, thickness)] call.  The canvas
    is the sequence of the line calls made on it, oldest first: the image
    starts as zeros and nothing else ever writes to it. *)
Record Stroke : Type := {
  pt1 : Z * Z;
  pt2 : Z * Z;
  color : Color;
  thickness : Z
}.

Record Painter : Type := {
  xp : Z;
  yp : Z;
  current_color : Color;
  imgCanvas : list Stroke
}.

Definition header_height : Z := 125.
Definition colors : list Color :=
  [(255, 0, 255); (255, 0, 0); (0, 255, 0); (0, 0, 0)].
Definition brush_thickness : Z := 15.
Definition eraser_thickness : Z := 50.

Definition cv2_line (canvas : list Stroke) (p q : Z * Z) (c : Color)
    (t : Z) : list Stroke :=
  canvas ++ [{| pt1 := p; pt2 := q; color := c; thickness := t |}].

(** The state before the first frame: [xp, yp = 0, 0], the first colour,
    an all-zero canvas. *)
Definition init : Painter :=
  {| xp := 0; yp := 0; current_color := (255, 0, 255); imgCanvas := [] |}.

Definition set_cursor (x y : Z) (st : Painter) : Painter :=
  {| xp := x; yp := y; current_color := current_color st;
     imgCanvas := imgCanvas st |}.

Definition set_color (c : Color) (st : Painter) : Painter :=
  {| xp := xp st; yp := yp st; current_color := c;
     imgCanvas := imgCanvas st |}.

(** *** The three branches of a frame with a hand *)

Inductive Mode : Type := Navigate | Draw | Idle.

(** [fingers[i] == v]. *)
Definition finger_is (fingers : list Z) (i : nat) (v : Z) : result bool :=
  f ← list_getitem fingers i; Ok (f =? v).

(** The [if] / [elif] / [else] chain on [fingers[1]] and [fingers[2]]. *)
Definition resolveMode (fingers : list Z) : result Mode :=
  py_and (finger_is fingers 1 1) (finger_is fingers 2 1) ≫= λ c1 : bool,
  if c1 then Ok Navigate
  else
    py_and (finger_is fingers 1 1) (finger_is fingers 2 0) ≫= λ c2 : bool,
    if c2 then Ok Draw else Ok Idle.

(** The header test of the selection branch: [Some btn_idx] when a button
    is chosen.  [w] is the frame width; [btn_width = w // num_buttons]. *)
Definition select_button (w ix iy : Z) : result (option Z) :=
  let num_buttons := Z.of_nat (length colors) in
  let btn_width := w / num_buttons in
  if iy <? header_height then
    btn_idx ← floordiv ix btn_width;
    if (0 <=? btn_idx) && (btn_idx <? num_buttons)
    then Ok (Some btn_idx) else Ok None
  else Ok None.

(** The body of [if lmList:] once [fingers], [ix] and [iy] are known. *)
Definition on_hand (w : Z) (fingers : list Z) (ix iy : Z) (st : Painter)
  : result Painter :=
  resolveMode fingers ≫= λ mode : Mode,
  match mode with
  | Navigate =>
      let st := set_cursor 0 0 st in
      select_button w ix iy ≫= λ sel : option Z,
      match sel with
      | Some btn_idx =>
          c ← list_getitem colors (Z.to_nat btn_idx);
          Ok (set_color c st)
      | None => Ok st
      end
  | Draw =>
      let '(xp', yp') :=
        if (xp st =? 0) && (yp st =? 0) then (ix, iy) else (xp st, yp st) in
      let canvas :=
        if bool_decide (current_color st = (0, 0, 0))
        then cv2_line (imgCanvas st) (xp', yp') (ix, iy)
               (current_color st) eraser_thickness
        else cv2_line (imgCanvas st) (xp', yp') (ix, iy)
               (current_color st) brush_thickness in
      Ok {| xp := ix; yp := iy; current_color := current_color st;
            imgCanvas := canvas |}
  | Idle => Ok (set_cursor 0 0 st)
  end.

(** One iteration of the loop of [run_virtual_painter], from the landmark
    list of the frame to the painter's next state.  Without a hand the
    whole [if lmList:] block is skipped. *)
Definition frame (w : Z) (lmList : list Landmark) (results : option Results)
    (st : Painter) : result Painter :=
  match lmList with
  | [] => Ok st
  | _ =>
      fingers ← fingersUpFromLm lmList results 0;
      list_getitem lmList 8 ≫= λ '(_, ix, iy),
      list_getitem lmList 12 ≫= λ '(_, mx, my),
      on_hand w fingers ix iy st
  end.

(** The loop itself, on the frames of a session. *)
Fixpoint run (w : Z) (frames : list (list Landmark * option Results))
    (st : Painter) : result Painter :=
  match frames with
  | [] => Ok st
  | (lmList, results) :: rest =>
      st' ← frame w lmList results st; run w rest st'
  end.

(** The merge of the canvas into the frame: [cv2.bitwise_and] and
    [cv2.bitwise_or] raise [cv2.error] when the canvas, which has the size
    of the first frame, and the frame differ in size. *)
Definition merge (canvas_shape : Z * Z) (t : Tick) : outcome unit :=
  if bool_decide ((height t, width t) = canvas_shape) then Done tt
  else Fails Cv2Error.

(** The loop of [run_virtual_painter]: each pass that reads a frame makes
    the canvas if there is none yet, finds the hand, runs [frame], merges
    the canvas into the frame and then looks at the key.  The state is the
    painter and the size [(h, w)] of [imgCanvas], [None] while [imgCanvas]
    is [None]. *)
Fixpoint painter_loop (ticks : list Tick) (st : Painter)
    (canvas : option (Z * Z)) : session string (Painter * option (Z * Z)) :=
  match ticks with
  | [] => Running (st, canvas)
  | t :: rest =>
      if negb (success t) then Returned "back"%string (st, canvas) rest
      else
        let canvas_shape := default (height t, width t) canvas in
        match HandTrackingModule.findHands (multi_hand_landmarks t) with
        | Fails e => Crashed e
        | Done _ =>
            match HandTrackingModule.findPosition (multi_hand_landmarks t) 0
            with
            | Fails e => Crashed e
            | Done (lmList, bbox) =>
                match frame (width t) lmList (hand_results t) st with
                | Raise e => Crashed (Py e)
                | Ok st =>
                    match merge canvas_shape t with
                    | Fails e => Crashed e
                    | Done _ =>
                        let key := pressed t in
                        if key =? ord "b"%char then
                          Returned "back"%string (st, Some canvas_shape) rest
                        else if key =? ord "q"%char then
                          Returned "quit"%string (st, Some canvas_shape) rest
                        else painter_loop rest st (Some canvas_shape)
                    end
                end
            end
        end
  end.

(** [run_virtual_painter]: every call starts from a blank canvas. *)
Definition run_virtual_painter (ticks : list Tick)
  : session string (Painter * option (Z * Z)) :=
  painter_loop ticks init None.

End VirtualPainter.

(** ** PoseModule.py *)

Module PoseModule.

Local Open Scope Q_scope.

(** [x < y] on the angle values. *)
Definition Qltb (x y : Q) : bool := negb (Qle_bool y x).

(** The two normalisation lines of [findAngle], on the value of
    [math.degrees(atan2(..) - atan2(..))]. *)
Definition normalize (angle : Q) : Q :=
  let angle := if Qltb angle 0 then angle + 360 else angle in
  if Qltb 180 angle then 360 - angle else angle.

(** The counter fields of [PoseDetector]: [dir] is 0 for down, 1 for up. *)
Record PoseDetector : Type := {
  curl_count : Q;
  dir : Z
}.

Definition new_detector : PoseDetector :=
  {| curl_count := 0; dir := 0%Z |}.

(** The "logic for counting" block: the next counter and the stage that is
    logged. *)
Definition count_rep (angle : Q) (self : PoseDetector)
  : PoseDetector * string :=
  let stage := "Middle"%string in
  let '(self, stage) :=
    if Qltb 160 angle
    then ({| curl_count := curl_count self; dir := 0%Z |}, "Down"%string)
    else (self, stage) in
  if Qltb angle 30 && (dir self =? 0)%Z
  then ({| curl_count := curl_count self + (1 # 2); dir := 1%Z |},
        "Up"%string)
  else (self, stage).

(** [findAngle] from the raw angle on: the returned angle, the counter
    and the stage. *)
Definition findAngle (raw : Q) (self : PoseDetector)
  : Q * PoseDetector * string :=
  let angle := normalize raw in
  let '(self, stage) := count_rep angle self in
  (angle, self, stage).

(** The counter after a sequence of angle samples. *)
Definition count_reps (angles : list Q) (self : PoseDetector)
  : PoseDetector :=
  foldl (λ self angle, (count_rep angle self).1) self angles.

(** The count after each sample, in order. *)
Fixpoint count_trace (angles : list Q) (self : PoseDetector) : list Q :=
  match angles with
  | [] => []
  | angle :: rest =>
      let self' := (count_rep angle self).1 in
      curl_count self' :: count_trace rest self'
  end.

(** [int(q)]: the fractional part is dropped, towards zero. *)
Definition py_int (q : Q) : Z := Z.quot (Qnum q) (Zpos (Qden q)).

(** The number [run_trainer] writes on the image: [int(curl_count)]. *)
Definition displayed_curls (self : PoseDetector) : Z :=
  py_int (curl_count self).

(** [PoseDetector.findPosition]: the list [[id, cx, cy]] of the pose's
    landmarks, given by their pixel positions in the detector's order; the
    empty list when there is no pose. *)
Definition findPosition (pose_landmarks : list (Z * Z)) : list Landmark :=
  imap (λ id '(cx, cy), (Z.of_nat id, cx, cy)) pose_landmarks.

(** [findAngle] from the landmark list on.  [degrees_between p1 p2 p3]
    stands for [math.degrees(math.atan2(y3 - y2, x3 - x2) -
    math.atan2(y1 - y2, x1 - x2))], which is not modelled.  The result is
    the returned angle ([None] when nothing is returned), the detector, and
    the row appended to the log without its time stamp:
    [int(angle), int(curl_count), stage]. *)
Definition findAngle_at (degrees_between : Z * Z → Z * Z → Z * Z → Q)
    (lmList : list Landmark) (p1 p2 p3 : nat) (self : PoseDetector)
  : result (option Q * PoseDetector * option (Z * Z * string)) :=
  match lmList with
  | [] => Ok (None, self, None)
  | _ =>
      list_getitem lmList p1 ≫= λ '(_, x1, y1),
      list_getitem lmList p2 ≫= λ '(_, x2, y2),
      list_getitem lmList p3 ≫= λ '(_, x3, y3),
      let raw := degrees_between (x1, y1) (x2, y2) (x3, y3) in
      let '(angle, self, stage) := findAngle raw self in
      Ok (Some angle, self,
          Some (py_int angle, py_int (curl_count self), stage))
  end.

(** The loop of [run_trainer].  The result of [cap.read()] is not tested:
    on a failed read [cv2.resize] gets no image and raises.  On 'q' the
    loop is left by [break], so that the [return 'quit'] written after it
    is never reached and the function returns ['back']. *)
Fixpoint trainer_loop (degrees_between : Z * Z → Z * Z → Z * Z → Q)
    (ticks : list Tick) (self : PoseDetector) : session string PoseDetector :=
  match ticks with
  | [] => Running self
  | t :: rest =>
      if negb (success t) then Crashed Cv2Error
      else
        let lmList := findPosition (pose_landmarks t) in
        let updated :=
          match lmList with
          | [] => Ok self
          | _ =>
              findAngle_at degrees_between lmList 12 14 16 self
                ≫= λ '(_, self, _), Ok self
          end in
        match updated with
        | Raise e => Crashed (Py e)
        | Ok self =>
            if pressed t =? ord "q"%char then Returned "back"%string self rest
            else trainer_loop degrees_between rest self
        end
  end.

(** [run_trainer]: every call makes a new detector. *)
Definition run_trainer (degrees_between : Z * Z → Z * Z → Z * Z → Q)
    (ticks : list Tick) : session string PoseDetector :=
  trainer_loop degrees_between ticks new_detector.

End PoseModule.

(** ** main.py: the launcher *)

Module Launcher.

(** The loop of [launcher].  A demo started from the menu consumes passes
    of its own and hands back the ones it did not consume; [fuel] bounds
    the number of passes of the menu loop. *)
Fixpoint launcher_loop (degrees_between : Z * Z → Z * Z → Z * Z → Q)
    (fuel : nat) (ticks : list Tick) : session unit unit :=
  match fuel with
  | O => Running tt
  | S fuel =>
      match ticks with
      | [] => Running tt
      | t :: rest =>
          if negb (success t) then Returned tt tt rest
          else
            let key := pressed t in
            if key =? ord "1"%char then
              match VirtualMouse.run_virtual_mouse rest with
              | Running _ => Running tt
              | Crashed e => Crashed e
              | Returned res _ rest =>
                  if String.eqb res "quit" then Returned tt tt rest
                  else launcher_loop degrees_between fuel rest
              end
            else if key =? ord "2"%char then
              match VirtualPainter.run_virtual_painter rest with
              | Running _ => Running tt
              | Crashed e => Crashed e
              | Returned res _ rest =>
                  if String.eqb res "quit" then Returned tt tt rest
                  else launcher_loop degrees_between fuel rest
              end
            else if key =? ord "3"%char then
              match PoseModule.run_trainer degrees_between rest with
              | Running _ => Running tt
              | Crashed e => Crashed e
              | Returned res _ rest =>
                  if String.eqb res "quit" then Returned tt tt rest
                  else launcher_loop degrees_between fuel rest
              end
            else if key =? ord "q"%char then Returned tt tt rest
            else launcher_loop degrees_between fuel rest
      end
  end.

(** [launcher]: the menu loop never makes more passes than there are. *)
Definition launcher (degrees_between : Z * Z → Z * Z → Z * Z → Q)
    (ticks : list Tick) : session unit unit :=
  launcher_loop degrees_between (length ticks) ticks.

End Launcher.

(** * Specification-side definitions *)

(** ** The finger vector, entry by entry *)

(** The ids that occur in a landmark list. *)
Definition ids (lmList : list Landmark) : list Z :=
  (λ lm : Landmark, lm.1.1) <$> lmList.

(** The ids the classifiers read: the thumb's joint and tip, and the pip and
    tip of the four fingers. *)
Definition required_ids : list Z := [3; 4; 6; 8; 10; 12; 14; 16; 18; 20].

(** Entry 0: the x-coordinates of landmarks 4 and 3, compared one way for a
    right hand and the other way otherwise; 0 when either is missing. *)
Definition thumb_entry (lm : gmap Z (Z * Z)) (handType : option string) : Z :=
  match lm !! 4, lm !! 3 with
  | Some tip, Some ip =>
      bit (if is_Right handType then tip.1 <? ip.1 else tip.1 >? ip.1)
  | _, _ => 0
  end.

(** Entries 1 to 4: tip above pip; 0 when either is missing. *)
Definition finger_entry (lm : gmap Z (Z * Z)) (tipId : Z) : Z :=
  match lm !! tipId, lm !! (tipId - 2) with
  | Some tip, Some pip => bit (tip.2 <? pip.2)
  | _, _ => 0
  end.

Definition finger_vector (lm : gmap Z (Z * Z)) (handType : option string)
  : list Z :=
  thumb_entry lm handType :: map (finger_entry lm) (tail tipIds).

(** ** Handedness, as the specification names it *)

(** The specification's Handedness of hand [handNo], read off the
    detector's data and not off the classifiers: Right or Left when the
    first [classification] entry of that hand carries that label, Unknown
    when there is no such entry or its label is neither. *)
Inductive Side : Type := RightHand | LeftHand | UnknownHand.

Definition handedness (results : option Results) (handNo : nat) : Side :=
  match results with
  | None => UnknownHand
  | Some r =>
      match multi_handedness r !! handNo with
      | None => UnknownHand
      | Some h =>
          match classification h with
          | [] => UnknownHand
          | label :: _ =>
              if String.eqb label "Right" then RightHand
              else if String.eqb label "Left" then LeftHand
              else UnknownHand
          end
      end
  end.

(** ** Sample detector output *)

Definition right_hand : option Results :=
  Some {| multi_handedness := [{| classification := ["Right"%string] |}] |}.

Definition left_hand : option Results :=
  Some {| multi_handedness := [{| classification := ["Left"%string] |}] |}.

(** A right hand with all five fingers stretched. *)
Definition open_hand : list Landmark :=
  [(0, 300, 400); (1, 260, 380); (2, 230, 350); (3, 210, 320); (4, 190, 300);
   (5, 270, 300); (6, 268, 250); (7, 266, 220); (8, 265, 190);
   (9, 300, 295); (10, 300, 240); (11, 300, 205); (12, 300, 175);
   (13, 325, 300); (14, 328, 255); (15, 330, 225); (16, 332, 200);
   (17, 350, 315); (18, 358, 280); (19, 362, 260); (20, 366, 240)].

(** A full hand of 21 landmarks whose index tip (landmark 8) is at
    [(ix, iy)].  The index finger is up when [0 < d_index], the middle
    finger when [0 < d_middle]; thumb, ring and pinky are down. *)
Definition hand_at (d_index d_middle ix iy : Z) : list Landmark :=
  (λ id : Z,
     if id =? 8 then (id, ix, iy)
     else if id =? 6 then (id, ix, iy + d_index)
     else if id =? 12 then (id, ix + 40, iy + 100)
     else if id =? 10 then (id, ix + 40, iy + 100 + d_middle)
     else (id, ix + 300 - 10 * id, iy + 150 + id))
  <$> (Z.of_nat <$> seq 0 21).

Definition pointing (ix iy : Z) : list Landmark := hand_at 50 (-20) ix iy.
Definition peace (ix iy : Z) : list Landmark := hand_at 50 50 ix iy.
Definition fist (ix iy : Z) : list Landmark := hand_at (-20) (-20) ix iy.

(** ** Strokes and painter states *)

Definition magenta : VirtualPainter.Color := (255, 0, 255).

(** A brush stroke in the first colour. *)
Definition brush (p q : Z * Z) : VirtualPainter.Stroke :=
  {| VirtualPainter.pt1 := p; VirtualPainter.pt2 := q;
     VirtualPainter.color := magenta;
     VirtualPainter.thickness := VirtualPainter.brush_thickness |}.

(** The stroke a drawing frame adds in state [st]: the current colour, and
    the eraser's width when that colour is black. *)
Definition stroke_of (st : VirtualPainter.Painter) (p q : Z * Z)
  : VirtualPainter.Stroke :=
  {| VirtualPainter.pt1 := p; VirtualPainter.pt2 := q;
     VirtualPainter.color := VirtualPainter.current_color st;
     VirtualPainter.thickness :=
       if bool_decide (VirtualPainter.current_color st = (0, 0, 0))
       then VirtualPainter.eraser_thickness
       else VirtualPainter.brush_thickness |}.

Definition pen_at (x y : Z) (canvas : list VirtualPainter.Stroke)
  : VirtualPainter.Painter :=
  {| VirtualPainter.xp := x; VirtualPainter.yp := y;
     VirtualPainter.current_color := magenta;
     VirtualPainter.imgCanvas := canvas |}.

(** The selection rule with the index clamped into the button range, as
    the specification words it: inside the header the event always fires,
    with [floor(x / regionWidth)] forced into [0 .. num_buttons - 1]. *)
Definition clamped_select_button (w ix iy : Z) : option Z :=
  let num_buttons := Z.of_nat (length VirtualPainter.colors) in
  let regionWidth := w / num_buttons in
  if iy <? VirtualPainter.header_height
  then Some (Z.max 0 (Z.min (num_buttons - 1) (ix / regionWidth)))
  else None.

(** The normalisation with each arithmetic step rounded by [rnd], as float
    arithmetic does. *)
Definition normalize_rounded (rnd : Q → Q) (angle : Q) : Q :=
  let angle :=
    if PoseModule.Qltb angle 0 then rnd (angle + 360)%Q else angle in
  if PoseModule.Qltb 180 angle then rnd (360 - angle)%Q else angle.

(** ** Reading order, and moving a hand *)

(** The order in which [countFingers] of main.py reads the dictionary. *)
Definition read_order : list Z := [4; 3; 8; 6; 12; 10; 16; 14; 20; 18].

(** The first id, in reading order, that the dictionary lacks. *)
Definition first_missing (lm : gmap Z (Z * Z)) : option Z :=
  find (λ k, match lm !! k with Some _ => false | None => true end)
    read_order.

(** The hand moved by [(dx, dy)] pixels. *)
Definition translate (dx dy : Z) (lmList : list Landmark) : list Landmark :=
  (λ '(id, x, y), (id, x + dx, y + dy)) <$> lmList.

(** The hand in the image flipped left to right, as [cv2.flip(img, 1)]
    does to a frame [w] wide: column [x] becomes column [w - 1 - x]. *)
Definition mirror (w : Z) (lmList : list Landmark) : list Landmark :=
  (λ '(id, x, y), (id, w - 1 - x, y)) <$> lmList.

(** ** Detector output *)

(** The landmark list the detectors build from the positions of one hand or
    pose: entry [i] is [[i, cx, cy]]. *)
Definition numbered (positions : list (Z * Z)) : list Landmark :=
  imap (λ id '(cx, cy), (Z.of_nat id, cx, cy)) positions.

(** A hand of 21 landmarks as the detector stores it: the positions of
    [open_hand]. *)
Definition open_hand_positions : list (Z * Z) :=
  (λ lm : Landmark, (lm.1.2, lm.2)) <$> open_hand.

(** ** Painter states and frames *)

(** A stroke in a palette colour, with the eraser's width exactly when it is
    black. *)
Definition stroke_ok (s : VirtualPainter.Stroke) : Prop :=
  VirtualPainter.color s ∈ VirtualPainter.colors
  ∧ VirtualPainter.thickness s
    = if bool_decide (VirtualPainter.color s = (0, 0, 0))
      then VirtualPainter.eraser_thickness
      else VirtualPainter.brush_thickness.

(** The current colour is in the palette and so is every stroke drawn. *)
Definition tools_ok (st : VirtualPainter.Painter) : Prop :=
  VirtualPainter.current_color st ∈ VirtualPainter.colors
  ∧ Forall stroke_ok (VirtualPainter.imgCanvas st).

(** A frame with a hand in Draw mode whose landmark at position 8 is at
    [p]. *)
Definition draws_at (p : Z * Z)
    (fr : list Landmark * option Results) : Prop :=
  ∃ fingers id,
    VirtualPainter.fingersUpFromLm fr.1 fr.2 0 = Ok fingers
    ∧ VirtualPainter.resolveMode fingers = Ok VirtualPainter.Draw
    ∧ fr.1 !! 8%nat = Some ((id, p.1, p.2) : Landmark)
    ∧ (13 ≤ length fr.1)%nat.

(** The strokes that join [prev] and the points of [pts] in turn. *)
Fixpoint polyline (st : VirtualPainter.Painter) (prev : Z * Z)
    (pts : list (Z * Z)) : list VirtualPainter.Stroke :=
  match pts with
  | [] => []
  | p :: rest => stroke_of st prev p :: polyline st p rest
  end.

(** The three things a frame with a hand does to the painter when it does
    not raise: lift the pen, lift the pen and pick a palette colour, or draw
    one stroke to the point. *)
Inductive frame_effect (ix iy : Z) (st : VirtualPainter.Painter) :
    VirtualPainter.Painter → Prop :=
| effect_lift : frame_effect ix iy st (VirtualPainter.set_cursor 0 0 st)
| effect_select c :
    c ∈ VirtualPainter.colors →
    frame_effect ix iy st
      (VirtualPainter.set_color c (VirtualPainter.set_cursor 0 0 st))
| effect_draw :
    frame_effect ix iy st
      {| VirtualPainter.xp := ix; VirtualPainter.yp := iy;
         VirtualPainter.current_color := VirtualPainter.current_color st;
         VirtualPainter.imgCanvas :=
           VirtualPainter.imgCanvas st ++
           [stroke_of st
              (if (VirtualPainter.xp st =? 0) && (VirtualPainter.yp st =? 0)
               then (ix, iy)
               else (VirtualPainter.xp st, VirtualPainter.yp st))
              (ix, iy)] |}.

(** ** Sessions *)




(** A pass whose key is not [c]. *)
Definition not_pressed (c : Ascii.ascii) (t : Tick) : Prop :=
  pressed t ≠ ord c.

(** A pass with a frame and the given key. *)
Definition key_tick (key : Z) : Tick :=
  {| success := true; height := 720; width := 1280;
     multi_hand_landmarks := [];
     hand_results := None; pose_landmarks := []; waitKey := key |}.



(** * Properties *)

(** ** The error monad and the dictionaries *)

Lemma bind_Ok {A B : Type} (a : A) (k : A → result B) : Ok a ≫= k = k a.
Proof. reflexivity. Qed.

Lemma bind_Raise {A B : Type} (e : exn) (k : A → result B) :
  Raise e ≫= k = Raise e.
Proof. reflexivity. Qed.

(** Membership in a list that is written out. *)
Ltac in_list :=
  repeat first [ apply elem_of_cons; left; reflexivity
               | apply elem_of_cons; right ].

(** A loop that appends one computed entry per element. *)
Lemma for_each_append_in {A B : Type} (body : list B → A → result (list B))
    (g : A → B) (xs : list A) (s : list B) :
  (∀ s x, x ∈ xs → body s x = Ok (s ++ [g x])) →
  for_each body xs s = Ok (s ++ map g xs).
Proof.
  revert s. induction xs as [|x xs IH]; intros s Hbody; simpl.
  - by rewrite app_nil_r.
  - rewrite Hbody by (apply elem_of_cons; left; reflexivity).
    rewrite bind_Ok, IH, <- app_assoc; [done|].
    intros s2 y Hy. apply Hbody. apply elem_of_cons; right; exact Hy.
Qed.

Lemma for_each_append {A B : Type} (body : list B → A → result (list B))
    (g : A → B) (xs : list A) (s : list B) :
  (∀ s x, body s x = Ok (s ++ [g x])) →
  for_each body xs s = Ok (s ++ map g xs).
Proof. intros Hbody. apply for_each_append_in. intros; apply Hbody. Qed.

Lemma lm_dict_foldl_is_Some (l : list Landmark) (d : gmap Z (Z * Z)) (k : Z) :
  is_Some (foldl (λ d '(id, x, y), <[id := (x, y)]> d) d l !! k)
  ↔ is_Some (d !! k) ∨ k ∈ ids l.
Proof.
  revert d. induction l as [|[[id x] y] l IH]; intros d; simpl.
  - rewrite elem_of_nil. tauto.
  - rewrite IH, elem_of_cons, lookup_insert_is_Some. simpl.
    destruct (decide (id = k)) as [->|Hne]; [tauto|].
    split; [intros [[?|[_ ?]]|?] | intros [?|[?|?]]]; auto; congruence.
Qed.

(** An id is a key of the dictionary exactly when the list has it. *)
Lemma lm_dict_is_Some (l : list Landmark) (k : Z) :
  is_Some (lm_dict l !! k) ↔ k ∈ ids l.
Proof.
  unfold lm_dict. rewrite lm_dict_foldl_is_Some, lookup_empty.
  split; [intros [H|H]; [by destruct H | done] | auto].
Qed.

Lemma lm_dict_None (l : list Landmark) (k : Z) :
  lm_dict l !! k = None ↔ k ∉ ids l.
Proof. rewrite <- lm_dict_is_Some, eq_None_not_Some. done. Qed.

Lemma lm_dict_nonempty lmList k v : lm_dict lmList !! k = Some v → lmList ≠ [].
Proof. intros H ->. discriminate H. Qed.

Lemma bit_cases (c : bool) : bit c = 0 ∨ bit c = 1.
Proof. destruct c; auto. Qed.

Lemma bit_1_iff (c : bool) : bit c = 1 ↔ c = true.
Proof. destruct c; simpl; split; congruence. Qed.

(** ** The three classifiers compute [finger_vector] *)

Lemma mouse_countFingers_vector lmList results handNo :
  lmList ≠ [] →
  let v := finger_vector (lm_dict lmList) (get_handType results handNo) in
  VirtualMouse.countFingers lmList results handNo = Ok (sum v, v).
Proof.
  intros Hne v. subst v. unfold VirtualMouse.countFingers.
  destruct lmList as [|lm0 rest]; [done|].
  set (lm := lm_dict (lm0 :: rest)). set (ht := get_handType results handNo).
  assert (Hthumb :
    (if dict_contains lm 4 && dict_contains lm 3 then
       if is_Right ht then
         tip ← dict_getitem lm 4; ip ← dict_getitem lm 3;
         Ok ([] ++ [bit (tip.1 <? ip.1)])
       else
         tip ← dict_getitem lm 4; ip ← dict_getitem lm 3;
         Ok ([] ++ [bit (tip.1 >? ip.1)])
     else Ok ([] ++ [0])) = Ok [thumb_entry lm ht]).
  { unfold thumb_entry, dict_contains, dict_getitem.
    destruct (lm !! 4) as [tip|], (lm !! 3) as [ip|]; simpl;
      try done; by destruct (is_Right ht). }
  rewrite Hthumb, bind_Ok.
  erewrite (for_each_append _ (finger_entry lm)).
  - by rewrite bind_Ok.
  - intros s x. unfold finger_entry, dict_contains, dict_getitem.
    destruct (lm !! x) as [tip|], (lm !! (x - 2)) as [pip|]; done.
Qed.

Lemma painter_fingersUp_vector lmList results handNo :
  VirtualPainter.fingersUpFromLm lmList results handNo
  = Ok (finger_vector (lm_dict lmList) (get_handType results handNo)).
Proof.
  unfold VirtualPainter.fingersUpFromLm.
  destruct lmList as [|lm0 rest]; [done|].
  set (lm := lm_dict (lm0 :: rest)). set (ht := get_handType results handNo).
  assert (Hthumb :
    (if dict_contains lm 4 && dict_contains lm 3 then
       if is_Right ht then
         tip ← dict_getitem lm 4; ip ← dict_getitem lm 3;
         Ok (<[0%nat := bit (tip.1 <? ip.1)]> [0; 0; 0; 0; 0])
       else
         tip ← dict_getitem lm 4; ip ← dict_getitem lm 3;
         Ok (<[0%nat := bit (tip.1 >? ip.1)]> [0; 0; 0; 0; 0])
     else Ok [0; 0; 0; 0; 0]) = Ok [thumb_entry lm ht; 0; 0; 0; 0]).
  { unfold thumb_entry, dict_contains, dict_getitem.
    destruct (lm !! 4) as [tip|], (lm !! 3) as [ip|]; simpl;
      try done; by destruct (is_Right ht). }
  assert (Hbody : ∀ (s : list Z) (i : nat) (tipId : Z),
    s !! i = Some 0 →
    (if dict_contains lm tipId && dict_contains lm (tipId - 2) then
       tip ← dict_getitem lm tipId; pip ← dict_getitem lm (tipId - 2);
       Ok (<[i := bit (tip.2 <? pip.2)]> s)
     else Ok s) = Ok (<[i := finger_entry lm tipId]> s)).
  { intros s i x Hs. unfold finger_entry, dict_contains, dict_getitem.
    destruct (lm !! x) as [tip|], (lm !! (x - 2)) as [pip|]; simpl;
      try done; by rewrite list_insert_id. }
  rewrite Hthumb, bind_Ok.
  change (VirtualPainter.enumerate_from 1 (tail tipIds))
    with [(1%nat, 8); (2%nat, 12); (3%nat, 16); (4%nat, 20)].
  cbn [for_each].
  do 4 (rewrite Hbody by reflexivity; rewrite bind_Ok; cbn [list_insert]).
  reflexivity.
Qed.

Lemma main_countFingers_vector lmList results handNo :
  (∀ k, k ∈ required_ids → is_Some (lm_dict lmList !! k)) →
  let v := finger_vector (lm_dict lmList) (get_handType results handNo) in
  Main.countFingers lmList results handNo = Ok (sum v, v).
Proof.
  intros Hreq v. subst v. unfold Main.countFingers.
  destruct lmList as [|lm0 rest].
  { destruct (Hreq 3) as [? Hx]; [in_list|].
    change (lm_dict []) with (∅ : gmap Z (Z * Z)) in Hx.
    by rewrite lookup_empty in Hx. }
  set (lm := lm_dict (lm0 :: rest)) in *.
  set (ht := get_handType results handNo).
  assert (Hthumb :
    (if is_Right ht then
       tip ← dict_getitem lm 4; ip ← dict_getitem lm 3;
       Ok ([] ++ [bit (tip.1 <? ip.1)])
     else
       tip ← dict_getitem lm 4; ip ← dict_getitem lm 3;
       Ok ([] ++ [bit (tip.1 >? ip.1)])) = Ok [thumb_entry lm ht]).
  { unfold thumb_entry, dict_getitem.
    destruct (Hreq 4) as [tip ->]; [in_list|].
    destruct (Hreq 3) as [ip ->]; [in_list|].
    by destruct (is_Right ht). }
  rewrite Hthumb, bind_Ok.
  erewrite (for_each_append_in _ (finger_entry lm)).
  - by rewrite bind_Ok.
  - intros s x Hx. unfold finger_entry, dict_getitem.
    unfold tipIds in Hx. simpl in Hx.
    rewrite !elem_of_cons, elem_of_nil in Hx.
    assert (is_Some (lm !! x) ∧ is_Some (lm !! (x - 2))) as [[tip ->] [pip ->]]
      by (destruct Hx as [->|[->|[->|[->|[]]]]]; split; apply Hreq; in_list).
    done.
Qed.

(** ** Missing landmarks *)

(** main.py reads the dictionary unguarded: with any required id missing
    from a non-empty landmark list, [countFingers] ends in a [KeyError]. *)
Lemma main_countFingers_raises lmList results handNo k :
  lmList ≠ [] → k ∈ required_ids → k ∉ ids lmList →
  ∃ k', Main.countFingers lmList results handNo = Raise (KeyError k').
Proof.
  intros Hne Hk Hmiss. apply lm_dict_None in Hmiss.
  unfold Main.countFingers. destruct lmList as [|lm0 rest]; [done|].
  set (lm := lm_dict (lm0 :: rest)) in *.
  unfold dict_getitem. cbn [for_each tail tipIds].
  repeat match goal with
  | |- context [lm !! ?j] =>
      lazymatch goal with
      | H : lm !! j = Some _ |- _ => fail
      | _ =>
          let p := fresh "p" in let Hp := fresh "Hp" in
          destruct (lm !! j) as [p|] eqn:Hp;
            [|eexists; by destruct (is_Right _)]
      end
  end.
  exfalso. unfold required_ids in Hk. rewrite !elem_of_cons, elem_of_nil in Hk.
  repeat match goal with
  | H : lm !! (?a - ?b) = _ |- _ =>
      let c := eval compute in (a - b) in change (a - b) with c in H
  end.
  destruct Hk as [->|[->|[->|[->|[->|[->|[->|[->|[->|[->|[]]]]]]]]]]]; congruence.
Qed.

(** VirtualMouse.py always answers on a non-empty landmark list, with five
    entries, and an entry whose landmarks are missing is 0. *)
Lemma mouse_missing_entry_zero lmList results handNo :
  lmList ≠ [] →
  ∃ v, VirtualMouse.countFingers lmList results handNo = Ok (sum v, v)
    ∧ length v = 5%nat
    ∧ ((4 ∉ ids lmList ∨ 3 ∉ ids lmList) → v !! 0%nat = Some 0)
    ∧ (∀ (i : nat) tipId, (1 ≤ i)%nat → tipIds !! i = Some tipId →
         (tipId ∉ ids lmList ∨ (tipId - 2) ∉ ids lmList) → v !! i = Some 0).
Proof.
  intros Hne. eexists. split; [by apply mouse_countFingers_vector|].
  split; [done|]. split.
  - rewrite <- !lm_dict_None. unfold finger_vector, thumb_entry. simpl.
    intros [-> | ->]; [done|]. by destruct (_ !! 4).
  - intros i tipId Hi Htip. rewrite <- !lm_dict_None.
    assert (Hent : ∀ t, (lm_dict lmList !! t = None
                         ∨ lm_dict lmList !! (t - 2) = None) →
                        finger_entry (lm_dict lmList) t = 0).
    { intros t [Ht|Ht]; unfold finger_entry; rewrite Ht; [done|].
      by destruct (_ !! t). }
    intros Hmiss. apply Hent in Hmiss.
    destruct i as [|[|[|[|[|i]]]]]; try lia; try discriminate;
      injection Htip as <-; simpl; by rewrite Hmiss.
Qed.

(** C4, as stated, fails for main.py: on the landmark list [[[0, 5, 5]]],
    which has none of the ids the classifier reads, [countFingers] of
    main.py raises [KeyError 4], where [countFingers] of VirtualMouse.py and
    [fingersUpFromLm] answer with five zeros. *)
Theorem main_countFingers_missing_id_KeyError :
  Main.countFingers [(0, 5, 5)] None 0 = Raise (KeyError 4)
  ∧ VirtualMouse.countFingers [(0, 5, 5)] None 0 = Ok (0, [0; 0; 0; 0; 0])
  ∧ VirtualPainter.fingersUpFromLm [(0, 5, 5)] None 0 = Ok [0; 0; 0; 0; 0].
Proof.
  split; [vm_compute; reflexivity|].
  split; vm_compute; reflexivity.
Qed.

(** C4, amended: [fingersUpFromLm] and [countFingers] of VirtualMouse.py
    answer on every landmark list, never with an error: five entries (for
    VirtualMouse.py, [(0, [])] on the empty list), and an entry whose
    landmark 3 or 4, or whose tip or pip, is missing is 0.  [countFingers]
    of main.py reads without a guard: it gives the same answer when the
    list has all ten ids, and on a non-empty list that lacks one of them it
    raises [KeyError]. *)
Theorem missing_id_zero_where_guarded lmList results handNo :
  ∃ v,
    VirtualPainter.fingersUpFromLm lmList results handNo = Ok v
    ∧ VirtualMouse.countFingers lmList results handNo
      = Ok (if bool_decide (lmList = []) then (0, []) else (sum v, v))
    ∧ length v = 5%nat
    ∧ ((4 ∉ ids lmList ∨ 3 ∉ ids lmList) → v !! 0%nat = Some 0)
    ∧ (∀ (i : nat) tipId, (1 ≤ i)%nat → tipIds !! i = Some tipId →
         (tipId ∉ ids lmList ∨ (tipId - 2) ∉ ids lmList) → v !! i = Some 0)
    ∧ ((∀ k, k ∈ required_ids → k ∈ ids lmList) →
         Main.countFingers lmList results handNo = Ok (sum v, v))
    ∧ (lmList ≠ [] →
       ∀ k, k ∈ required_ids → k ∉ ids lmList →
         ∃ k', Main.countFingers lmList results handNo = Raise (KeyError k')).
Proof.
  exists (finger_vector (lm_dict lmList) (get_handType results handNo)).
  split; [apply painter_fingersUp_vector|]. split.
  { case_bool_decide as Hne; [by subst|]. by apply mouse_countFingers_vector. }
  split; [done|]. split.
  { rewrite <- !lm_dict_None. unfold finger_vector, thumb_entry. simpl.
    intros [-> | ->]; [done|]. by destruct (_ !! 4). }
  split.
  { intros i tipId Hi Htip. rewrite <- !lm_dict_None.
    assert (Hent : ∀ t, (lm_dict lmList !! t = None
                         ∨ lm_dict lmList !! (t - 2) = None) →
                        finger_entry (lm_dict lmList) t = 0).
    { intros t [Ht|Ht]; unfold finger_entry; rewrite Ht; [done|].
      by destruct (_ !! t). }
    intros Hmiss. apply Hent in Hmiss.
    destruct i as [|[|[|[|[|i]]]]]; try lia; try discriminate;
      injection Htip as <-; simpl; by rewrite Hmiss. }
  split.
  { intros Hall. apply main_countFingers_vector.
    intros k Hk. apply lm_dict_is_Some. by apply Hall. }
  intros Hne k Hk Hmiss. by apply (main_countFingers_raises _ _ _ k).
Qed.

Lemma missing_id_zero_where_guarded_witness :
  ∃ v,
    VirtualPainter.fingersUpFromLm [(3, 50, 60); (4, 40, 55)] None 0 = Ok v
    ∧ VirtualMouse.countFingers [(3, 50, 60); (4, 40, 55)] None 0
      = Ok (sum v, v)
    ∧ v !! 1%nat = Some 0
    ∧ ∃ k', Main.countFingers [(3, 50, 60); (4, 40, 55)] None 0
            = Raise (KeyError k').
Proof.
  destruct (missing_id_zero_where_guarded [(3, 50, 60); (4, 40, 55)] None 0)
    as (v & Hp & Hm & _ & _ & Hfinger & _ & Hmain).
  exists v. split; [exact Hp|]. split; [exact Hm|]. split.
  - apply (Hfinger 1%nat 8); [lia | reflexivity |].
    left. simpl. intros Hin.
    repeat (apply elem_of_cons in Hin as [Hin|Hin]; [discriminate|]).
    by apply elem_of_nil in Hin.
  - apply (Hmain ltac:(discriminate) 8); [in_list|].
    simpl. intros Hin.
    repeat (apply elem_of_cons in Hin as [Hin|Hin]; [discriminate|]).
    by apply elem_of_nil in Hin.
Defined.

(** ** The thumb and the four fingers *)

(** What the classifiers make of the detector's handedness data: they take
    the Right branch exactly for a hand whose Handedness is Right. *)
Lemma is_Right_handedness results handNo :
  is_Right (get_handType results handNo) = true
  ↔ handedness results handNo = RightHand.
Proof.
  unfold is_Right, get_handType, handedness. rewrite bool_decide_eq_true.
  destruct results as [[mh]|]; [|done]. cbn [multi_handedness].
  destruct mh as [|h0 mh']; [by rewrite lookup_nil|].
  destruct ((h0 :: mh') !! handNo) as [[[|label labels]]|]; try done.
  cbn [classification]. change ((label :: labels) !! 0%nat) with (Some label).
  destruct (String.eqb_spec label "Right") as [->|Hne]; [done|].
  split; [congruence|]. by destruct (String.eqb label "Left").
Qed.

(** C6: when the dictionary of the landmark list has ids 4 (tip) and 3
    (joint), [countFingers] of VirtualMouse.py and [fingersUpFromLm] return
    the same vector, whose entry 0 is 0 or 1.  When the detector's data give
    the hand the Handedness Right, the entry is 1 exactly when
    [tip.x < joint.x]; when they give it Left or nothing (Unknown), the
    entry is 1 exactly when [tip.x > joint.x]. *)
Theorem thumb_by_handedness lmList results handNo (tip joint : Z * Z) :
  lm_dict lmList !! 4 = Some tip →
  lm_dict lmList !! 3 = Some joint →
  ∃ thumb rest,
    VirtualMouse.countFingers lmList results handNo
      = Ok (sum (thumb :: rest), thumb :: rest)
    ∧ VirtualPainter.fingersUpFromLm lmList results handNo
      = Ok (thumb :: rest)
    ∧ (thumb = 0 ∨ thumb = 1)
    ∧ (handedness results handNo = RightHand →
         (thumb = 1 ↔ tip.1 < joint.1))
    ∧ (handedness results handNo = LeftHand
       ∨ handedness results handNo = UnknownHand →
         (thumb = 1 ↔ tip.1 > joint.1)).
Proof.
  intros H4 H3.
  exists (thumb_entry (lm_dict lmList) (get_handType results handNo)).
  exists (map (finger_entry (lm_dict lmList)) (tail tipIds)).
  split; [apply mouse_countFingers_vector; by eapply lm_dict_nonempty|].
  split; [apply painter_fingersUp_vector|].
  unfold thumb_entry. rewrite H4, H3.
  split; [apply bit_cases|].
  split; intros Hh; rewrite bit_1_iff.
  - rewrite (proj2 (is_Right_handedness results handNo) Hh). apply Z.ltb_lt.
  - destruct (is_Right (get_handType results handNo)) eqn:Hr.
    + apply is_Right_handedness in Hr. rewrite Hr in Hh.
      by destruct Hh.
    + rewrite Z.gtb_ltb, Z.ltb_lt. lia.
Qed.

Lemma thumb_by_handedness_witness :
  handedness right_hand 0 = RightHand
  ∧ ∃ rest,
      VirtualMouse.countFingers [(3, 50, 60); (4, 40, 55)] right_hand 0
        = Ok (sum (1 :: rest), 1 :: rest)
      ∧ VirtualPainter.fingersUpFromLm [(3, 50, 60); (4, 40, 55)] right_hand 0
        = Ok (1 :: rest).
Proof.
  split; [reflexivity|].
  destruct (thumb_by_handedness [(3, 50, 60); (4, 40, 55)] right_hand 0
              (40, 55) (50, 60) eq_refl eq_refl)
    as (thumb & rest & Hm & Hp & _ & Hright & _).
  assert (thumb = 1) as -> by (apply Hright; [reflexivity | simpl; lia]).
  exists rest. split; [exact Hm | exact Hp].
Defined.

(** The same landmarks read as a right and as a left hand. *)
Example thumb_right_then_left :
  VirtualPainter.fingersUpFromLm [(3, 50, 60); (4, 40, 55)] right_hand 0
    = Ok [1; 0; 0; 0; 0]
  ∧ VirtualPainter.fingersUpFromLm [(3, 50, 60); (4, 40, 55)] left_hand 0
    = Ok [0; 0; 0; 0; 0].
Proof. split; vm_compute; reflexivity. Qed.

(** C7: for finger [i] in 1..4 with tip id [tipIds[i]], when the dictionary
    has the tip and the pip (id tip - 2), [countFingers] of VirtualMouse.py
    and [fingersUpFromLm] return the same vector, whose entry [i] is 0 or 1,
    is 1 exactly when [tip.y < pip.y], and is 0 when [tip.y = pip.y]. *)
Theorem finger_by_tip_pip lmList results handNo (i : nat) (tipId : Z)
    (tip pip : Z * Z) :
  (1 ≤ i)%nat →
  tipIds !! i = Some tipId →
  lm_dict lmList !! tipId = Some tip →
  lm_dict lmList !! (tipId - 2) = Some pip →
  ∃ v b,
    VirtualMouse.countFingers lmList results handNo = Ok (sum v, v)
    ∧ VirtualPainter.fingersUpFromLm lmList results handNo = Ok v
    ∧ v !! i = Some b
    ∧ (b = 0 ∨ b = 1)
    ∧ (b = 1 ↔ tip.2 < pip.2)
    ∧ (tip.2 = pip.2 → b = 0).
Proof.
  intros Hi Htip Ht Hp.
  exists (finger_vector (lm_dict lmList) (get_handType results handNo)).
  exists (bit (tip.2 <? pip.2)).
  split; [apply mouse_countFingers_vector; by eapply lm_dict_nonempty|].
  split; [apply painter_fingersUp_vector|].
  split.
  { assert (finger_entry (lm_dict lmList) tipId = bit (tip.2 <? pip.2)) as <-
      by (unfold finger_entry; by rewrite Ht, Hp).
    destruct i as [|[|[|[|[|i]]]]]; try lia; try discriminate;
      by injection Htip as <-. }
  split; [apply bit_cases|].
  split; [by rewrite bit_1_iff, Z.ltb_lt|].
  intros ->. by rewrite Z.ltb_irrefl.
Qed.

Lemma finger_by_tip_pip_witness :
  ∃ v b,
    VirtualMouse.countFingers [(6, 100, 90); (8, 100, 90)] None 0
      = Ok (sum v, v)
    ∧ VirtualPainter.fingersUpFromLm [(6, 100, 90); (8, 100, 90)] None 0 = Ok v
    ∧ v !! 1%nat = Some b
    ∧ (b = 0 ∨ b = 1)
    ∧ (b = 1 ↔ (100, 90).2 < (100, 90).2)
    ∧ ((100, 90).2 = (100, 90).2 → b = 0).
Proof.
  apply (finger_by_tip_pip [(6, 100, 90); (8, 100, 90)] None 0 1 8
           (100, 90) (100, 90)); [lia | reflexivity ..].
Defined.

(** ** The three classifiers agree *)

(** C10: on a landmark list that has all of the ids 3, 4, 6, 8, 10, 12, 14,
    16, 18 and 20, and for any handedness data, [countFingers] of main.py,
    [countFingers] of VirtualMouse.py and [fingersUpFromLm] all return, and
    return the same vector of five entries. *)
Theorem classifiers_agree lmList results handNo :
  (∀ k, k ∈ required_ids → k ∈ ids lmList) →
  ∃ v,
    length v = 5%nat
    ∧ Main.countFingers lmList results handNo = Ok (sum v, v)
    ∧ VirtualMouse.countFingers lmList results handNo = Ok (sum v, v)
    ∧ VirtualPainter.fingersUpFromLm lmList results handNo = Ok v.
Proof.
  intros Hreq.
  assert (Hdict : ∀ k, k ∈ required_ids → is_Some (lm_dict lmList !! k))
    by (intros k Hk; by apply lm_dict_is_Some, Hreq).
  exists (finger_vector (lm_dict lmList) (get_handType results handNo)).
  split; [done|].
  split; [by apply main_countFingers_vector|].
  split; [|apply painter_fingersUp_vector].
  apply mouse_countFingers_vector. intros ->.
  destruct (Hdict 3) as [? Hx]; [in_list|]. discriminate Hx.
Qed.

Lemma classifiers_agree_witness :
  ∃ v,
    length v = 5%nat
    ∧ Main.countFingers open_hand right_hand 0 = Ok (sum v, v)
    ∧ VirtualMouse.countFingers open_hand right_hand 0 = Ok (sum v, v)
    ∧ VirtualPainter.fingersUpFromLm open_hand right_hand 0 = Ok v.
Proof.
  apply (classifiers_agree open_hand right_hand 0).
  intros k Hk. unfold required_ids in Hk.
  rewrite !elem_of_cons, elem_of_nil in Hk.
  destruct Hk as [->|[->|[->|[->|[->|[->|[->|[->|[->|[->|[]]]]]]]]]]];
    vm_compute; in_list.
Defined.

(** The open right hand: all five fingers up, in all three classifiers. *)
Example open_hand_all_up :
  Main.countFingers open_hand right_hand 0 = Ok (5, [1; 1; 1; 1; 1])
  ∧ VirtualMouse.countFingers open_hand right_hand 0 = Ok (5, [1; 1; 1; 1; 1])
  ∧ VirtualPainter.fingersUpFromLm open_hand right_hand 0 = Ok [1; 1; 1; 1; 1].
Proof.
  split; [vm_compute; reflexivity|].
  split; vm_compute; reflexivity.
Qed.

(** ** The painter: mode selection *)

Import VirtualPainter.

Lemma resolveMode_vector (thumb index middle ring pinky : Z) :
  resolveMode [thumb; index; middle; ring; pinky]
  = Ok (if (index =? 1) && (middle =? 1) then Navigate
        else if (index =? 1) && (middle =? 0) then Draw
        else Idle).
Proof.
  unfold resolveMode, py_and, finger_is, list_getitem. simpl.
  destruct (index =? 1); simpl; [|done].
  destruct (middle =? 1); simpl; [done|].
  by destruct (middle =? 0).
Qed.

(** C5: with index and middle both 1 the mode is Navigate whatever the
    thumb, ring and pinky entries are; with index 1 and middle 0 it is Draw;
    every other vector, the all-zero one included, gives Idle. *)
Theorem resolveMode_first_match (thumb ring pinky : Z) :
  resolveMode [thumb; 1; 1; ring; pinky] = Ok Navigate
  ∧ resolveMode [thumb; 1; 0; ring; pinky] = Ok Draw
  ∧ (∀ index middle,
       ¬ (index = 1 ∧ (middle = 1 ∨ middle = 0)) →
       resolveMode [thumb; index; middle; ring; pinky] = Ok Idle)
  ∧ resolveMode [0; 0; 0; 0; 0] = Ok Idle.
Proof.
  split; [apply resolveMode_vector|].
  split; [apply resolveMode_vector|].
  split; [|apply resolveMode_vector].
  intros index middle Hno. rewrite resolveMode_vector.
  destruct (index =? 1) eqn:Hi; [|done].
  apply Z.eqb_eq in Hi.
  destruct (middle =? 1) eqn:Hm1; [apply Z.eqb_eq in Hm1; tauto|].
  destruct (middle =? 0) eqn:Hm0; [apply Z.eqb_eq in Hm0; tauto|].
  done.
Qed.

Lemma resolveMode_first_match_witness :
  resolveMode [1; 0; 1; 1; 0] = Ok Idle.
Proof.
  apply (proj1 (proj2 (proj2 (resolveMode_first_match 1 1 0))) 0 1). lia.
Defined.

(** On the vector of any landmark list the mode is defined. *)
Lemma resolveMode_finger_vector lm handType :
  ∃ mode, resolveMode (finger_vector lm handType) = Ok mode.
Proof. unfold finger_vector. simpl. rewrite resolveMode_vector. eauto. Qed.

(** ** The painter: the three branches *)

Lemma on_hand_Draw w fingers ix iy st :
  resolveMode fingers = Ok Draw →
  on_hand w fingers ix iy st
  = Ok {| xp := ix; yp := iy; current_color := current_color st;
          imgCanvas :=
            imgCanvas st ++
            [stroke_of st (if (xp st =? 0) && (yp st =? 0)
                           then (ix, iy) else (xp st, yp st)) (ix, iy)] |}.
Proof.
  intros Hmode. unfold on_hand. rewrite Hmode, bind_Ok.
  unfold stroke_of, cv2_line.
  destruct ((xp st =? 0) && (yp st =? 0)); by case_bool_decide.
Qed.

Lemma on_hand_Idle w fingers ix iy st :
  resolveMode fingers = Ok Idle →
  on_hand w fingers ix iy st = Ok (set_cursor 0 0 st).
Proof. intros Hmode. unfold on_hand. by rewrite Hmode. Qed.

Lemma floordiv_nonzero a b : b ≠ 0 → floordiv a b = Ok (a / b).
Proof. intros Hb. unfold floordiv. by rewrite (proj2 (Z.eqb_neq b 0) Hb). Qed.

Lemma select_button_eq w ix iy :
  4 ≤ w →
  select_button w ix iy
  = Ok (if (iy <? header_height) && (0 <=? ix / (w / 4)) && (ix / (w / 4) <? 4)
        then Some (ix / (w / 4)) else None).
Proof.
  intros Hw. unfold select_button.
  change (Z.of_nat (length colors)) with 4.
  destruct (iy <? header_height); [|done].
  rewrite floordiv_nonzero, bind_Ok.
  - simpl. by destruct ((0 <=? ix / (w / 4)) && (ix / (w / 4) <? 4)).
  - assert (1 ≤ w / 4) by (apply Z.div_le_lower_bound; lia). lia.
Qed.

(** A frame narrower than the four buttons has button width 0: the header
    test then divides by zero. *)
Lemma select_button_narrow_frame :
  select_button 3 1 50 = Raise ZeroDivisionError.
Proof. reflexivity. Qed.

Lemma on_hand_Navigate w fingers ix iy st :
  4 ≤ w →
  resolveMode fingers = Ok Navigate →
  ∃ sel, select_button w ix iy = Ok sel
    ∧ match sel with
      | Some btn_idx =>
          ∃ c, colors !! Z.to_nat btn_idx = Some c
            ∧ on_hand w fingers ix iy st = Ok (set_color c (set_cursor 0 0 st))
      | None => on_hand w fingers ix iy st = Ok (set_cursor 0 0 st)
      end.
Proof.
  intros Hw Hmode. unfold on_hand. rewrite Hmode, bind_Ok.
  rewrite select_button_eq by done.
  eexists; split; [done|]. rewrite bind_Ok.
  destruct (iy <? header_height); [|done]. simpl.
  destruct (0 <=? ix / (w / 4)) eqn:Hlo; [|done].
  destruct (ix / (w / 4) <? 4) eqn:Hhi; [|done]. simpl.
  apply Z.leb_le in Hlo. apply Z.ltb_lt in Hhi.
  destruct (lookup_lt_is_Some_2 colors (Z.to_nat (ix / (w / 4)))) as [c Hc].
  { simpl. lia. }
  exists c. split; [done|]. unfold list_getitem. by rewrite Hc.
Qed.

(** ** The painter: strokes *)

Lemma two_draw_frames :
  run 1280 [(pointing 10 10, None); (pointing 20 20, None)] init
  = Ok (pen_at 20 20 [brush (10, 10) (10, 10); brush (10, 10) (20, 20)]).
Proof. vm_compute. reflexivity. Qed.

(** C1, as stated, fails: from the initial state the first Draw frame at
    (10,10) already puts a stroke on the canvas, the zero-length line from
    (10,10) to (10,10), so that Draw(10,10), Draw(20,20) leaves two strokes
    and not the single segment (10,10)-(20,20). *)
Lemma two_draw_frames_draw_two_strokes :
  frame 1280 (pointing 10 10) None init
    = Ok (pen_at 10 10 [brush (10, 10) (10, 10)])
  ∧ run 1280 [(pointing 10 10, None); (pointing 20 20, None)] init
    = Ok (pen_at 20 20 [brush (10, 10) (10, 10); brush (10, 10) (20, 20)])
  ∧ [brush (10, 10) (10, 10); brush (10, 10) (20, 20)]
    ≠ [brush (10, 10) (20, 20)].
Proof.
  split; [vm_compute; reflexivity|].
  split; [vm_compute; reflexivity|].
  discriminate.
Qed.

(** C1, amended: a Draw frame at [(ix, iy)] moves the cursor there and adds
    exactly one stroke, ending at [(ix, iy)].  With the cursor unset the
    stroke starts at [(ix, iy)] too (a zero-length line at the pen-down
    point); otherwise it starts at the previous cursor.  A stroke starts at
    the sentinel (0,0) only when the frame's own point is (0,0).  Draw(10,10)
    then Draw(20,20) from the initial state leaves the two strokes
    (10,10)-(10,10) and (10,10)-(20,20). *)
Theorem draw_frame_stroke w fingers ix iy st :
  resolveMode fingers = Ok Draw →
  ∃ start,
    on_hand w fingers ix iy st
    = Ok {| xp := ix; yp := iy; current_color := current_color st;
            imgCanvas := imgCanvas st ++ [stroke_of st start (ix, iy)] |}
    ∧ (xp st = 0 ∧ yp st = 0 → start = (ix, iy))
    ∧ (¬ (xp st = 0 ∧ yp st = 0) → start = (xp st, yp st))
    ∧ (start = (0, 0) → (ix, iy) = (0, 0))
    ∧ run 1280 [(pointing 10 10, None); (pointing 20 20, None)] init
      = Ok (pen_at 20 20 [brush (10, 10) (10, 10); brush (10, 10) (20, 20)]).
Proof.
  intros Hmode.
  exists (if (xp st =? 0) && (yp st =? 0) then (ix, iy) else (xp st, yp st)).
  split; [by apply on_hand_Draw|].
  assert (Hunset : (xp st =? 0) && (yp st =? 0) = true ↔ xp st = 0 ∧ yp st = 0)
    by (rewrite andb_true_iff, !Z.eqb_eq; done).
  destruct ((xp st =? 0) && (yp st =? 0)).
  - split; [done|]. split; [intros Hn; exfalso; apply Hn, Hunset; done|].
    split; [done|]. exact two_draw_frames.
  - assert (Hset : ¬ (xp st = 0 ∧ yp st = 0))
      by (intros H; apply Hunset in H; discriminate).
    split; [tauto|]. split; [done|].
    split; [|exact two_draw_frames].
    intros [= Hx Hy]. tauto.
Qed.

Lemma draw_frame_stroke_witness :
  ∃ start,
    on_hand 1280 [0; 1; 0; 0; 0] 10 10 init
    = Ok {| xp := 10; yp := 10; current_color := current_color init;
            imgCanvas := imgCanvas init ++ [stroke_of init start (10, 10)] |}
    ∧ (xp init = 0 ∧ yp init = 0 → start = (10, 10))
    ∧ (¬ (xp init = 0 ∧ yp init = 0) → start = (xp init, yp init))
    ∧ (start = (0, 0) → (10, 10) = (0, 0))
    ∧ run 1280 [(pointing 10 10, None); (pointing 20 20, None)] init
      = Ok (pen_at 20 20 [brush (10, 10) (10, 10); brush (10, 10) (20, 20)]).
Proof. apply (draw_frame_stroke 1280 [0; 1; 0; 0; 0] 10 10 init). reflexivity. Defined.

(** ** The painter: lifting the pen *)

(** C3, as stated, fails.  A frame without a hand skips the whole block and
    keeps the cursor: after Draw(10,10), an empty frame and Draw(20,20) the
    canvas has the segment (10,10)-(20,20).  And after a frame that does
    lift the pen (a fist), the next Draw frame still puts a stroke on the
    canvas, the zero-length one at its own point. *)
Lemma frame_without_hand_keeps_cursor :
  frame 1280 [] None (pen_at 10 10 [brush (10, 10) (10, 10)])
    = Ok (pen_at 10 10 [brush (10, 10) (10, 10)])
  ∧ run 1280 [(pointing 10 10, None); ([], None); (pointing 20 20, None)] init
    = Ok (pen_at 20 20 [brush (10, 10) (10, 10); brush (10, 10) (20, 20)])
  ∧ run 1280 [(pointing 10 10, None); (fist 15 15, None);
              (pointing 20 20, None)] init
    = Ok (pen_at 20 20 [brush (10, 10) (10, 10); brush (20, 20) (20, 20)]).
Proof.
  split; [reflexivity|].
  split; vm_compute; reflexivity.
Qed.

(** C3, amended: on a frame at least four pixels wide, with a hand of at
    least 13 landmarks whose mode is not Draw, the frame succeeds, resets
    the cursor to (0,0) and leaves the canvas as it was; the next Draw
    frame then adds one stroke only, the zero-length one at its own point,
    and nothing from an earlier position.  A frame without a hand leaves the
    canvas as it was. *)
Theorem hand_frame_not_Draw_lifts_pen w lmList results st fingers mode :
  4 ≤ w →
  (13 ≤ length lmList)%nat →
  fingersUpFromLm lmList results 0 = Ok fingers →
  resolveMode fingers = Ok mode →
  mode ≠ Draw →
  (∃ st', frame w lmList results st = Ok st'
     ∧ xp st' = 0 ∧ yp st' = 0
     ∧ imgCanvas st' = imgCanvas st
     ∧ ∀ fingers' ix iy,
         resolveMode fingers' = Ok Draw →
         ∃ st'', on_hand w fingers' ix iy st' = Ok st''
           ∧ imgCanvas st''
             = imgCanvas st ++ [stroke_of st' (ix, iy) (ix, iy)])
  ∧ (∃ st0, frame w [] results st = Ok st0 ∧ imgCanvas st0 = imgCanvas st).
Proof.
  intros Hw Hlen Hfingers Hmode Hnot.
  split; [|by exists st].
  assert (∃ st', frame w lmList results st = Ok st'
            ∧ xp st' = 0 ∧ yp st' = 0 ∧ imgCanvas st' = imgCanvas st)
    as (st' & Hframe & Hxp & Hyp & Hcanvas).
  { unfold frame. destruct lmList as [|lm0 rest]; [simpl in Hlen; lia|].
    rewrite Hfingers, bind_Ok. unfold list_getitem.
    destruct (lookup_lt_is_Some_2 (lm0 :: rest) 8) as [[[id8 ix] iy] ->];
      [lia|].
    destruct (lookup_lt_is_Some_2 (lm0 :: rest) 12) as [[[id12 mx] my] ->];
      [lia|].
    rewrite !bind_Ok. destruct mode; [| done |].
    - destruct (on_hand_Navigate w fingers ix iy st Hw Hmode)
        as ([btn_idx|] & _ & Hsel).
      + destruct Hsel as (c & _ & ->). by eexists.
      + rewrite Hsel. by eexists.
    - rewrite on_hand_Idle by done. by eexists. }
  exists st'. repeat (split; [done|]).
  intros fingers' ix iy Hdraw. eexists. split; [by apply on_hand_Draw|].
  simpl. by rewrite Hxp, Hyp, Hcanvas.
Qed.

Lemma hand_frame_not_Draw_lifts_pen_witness :
  (∃ st', frame 1280 (fist 15 15) None (pen_at 10 10 []) = Ok st'
     ∧ xp st' = 0 ∧ yp st' = 0
     ∧ imgCanvas st' = imgCanvas (pen_at 10 10 [])
     ∧ ∀ fingers' ix iy,
         resolveMode fingers' = Ok Draw →
         ∃ st'', on_hand 1280 fingers' ix iy st' = Ok st''
           ∧ imgCanvas st''
             = imgCanvas (pen_at 10 10 []) ++ [stroke_of st' (ix, iy) (ix, iy)])
  ∧ (∃ st0, frame 1280 [] None (pen_at 10 10 []) = Ok st0
       ∧ imgCanvas st0 = imgCanvas (pen_at 10 10 [])).
Proof.
  apply (hand_frame_not_Draw_lifts_pen 1280 (fist 15 15) None (pen_at 10 10 [])
           [0; 0; 0; 0; 0] Idle).
  - lia.
  - vm_compute. lia.
  - vm_compute. reflexivity.
  - reflexivity.
  - discriminate.
Defined.

(** ** The painter: header buttons *)

(** C9, as stated, fails: the index is not clamped.  In a frame 1282 wide
    the buttons are 320 wide; at (1281, 50), inside the frame and inside the
    header, the index is 4, clamping would select button 3, and the code
    selects nothing.  Left of the first button, at x = -3, the index is -1,
    clamping would select button 0, and the code again selects nothing. *)
Lemma select_button_not_clamped :
  select_button 1282 1281 50 = Ok None
  ∧ clamped_select_button 1282 1281 50 = Some 3
  ∧ on_hand 1282 [0; 1; 1; 0; 0] 1281 50 init = Ok init
  ∧ select_button 1280 (-3) 50 = Ok None
  ∧ clamped_select_button 1280 (-3) 50 = Some 0.
Proof. repeat split. Qed.

(** C9, amended: in a frame at least four pixels wide, with
    [btn_width = w // 4] and [btn_idx = ix // btn_width]: when [iy] is above
    the header line and [btn_idx] is one of 0..3, which is the case exactly
    when [0 <= ix < 4 * btn_width], button [btn_idx] is selected, and it is
    the button whose column holds [ix]; when [iy] is not above the header
    line or [btn_idx] is out of range, nothing is selected; and a Navigate
    frame never fails: it resets the cursor and takes the selected button's
    colour, if any. *)
Theorem select_button_range_checked w ix iy :
  4 ≤ w →
  let btn_width := w / 4 in
  let btn_idx := ix / btn_width in
  (iy < header_height → 0 ≤ btn_idx < 4 →
     select_button w ix iy = Ok (Some btn_idx)
     ∧ btn_idx * btn_width ≤ ix < (btn_idx + 1) * btn_width)
  ∧ (header_height ≤ iy ∨ btn_idx < 0 ∨ 4 ≤ btn_idx →
     select_button w ix iy = Ok None)
  ∧ (0 ≤ btn_idx < 4 ↔ 0 ≤ ix < 4 * btn_width)
  ∧ (∀ fingers st,
       resolveMode fingers = Ok Navigate →
       ∃ sel, select_button w ix iy = Ok sel
         ∧ match sel with
           | Some i =>
               ∃ c, colors !! Z.to_nat i = Some c
                 ∧ on_hand w fingers ix iy st
                   = Ok (set_color c (set_cursor 0 0 st))
           | None => on_hand w fingers ix iy st = Ok (set_cursor 0 0 st)
           end).
Proof.
  intros Hw btn_width btn_idx.
  assert (Hbw : 0 < btn_width)
    by (assert (1 ≤ w / 4) by (apply Z.div_le_lower_bound; lia);
        unfold btn_width; lia).
  pose proof (select_button_eq w ix iy Hw) as Heq.
  fold btn_width in Heq. fold btn_idx in Heq.
  split; [|split; [|split]].
  - intros Hy Hidx. split.
    + rewrite Heq.
      rewrite (proj2 (Z.ltb_lt _ _) Hy), (proj2 (Z.leb_le _ _) (proj1 Hidx)),
        (proj2 (Z.ltb_lt _ _) (proj2 Hidx)). done.
    + unfold btn_idx.
      pose proof (Z.mul_div_le ix btn_width Hbw).
      pose proof (Z.mul_succ_div_gt ix btn_width Hbw). lia.
  - intros Hout. rewrite Heq.
    destruct (iy <? header_height) eqn:Hy; [|done].
    destruct (0 <=? btn_idx) eqn:Hlo; [|done].
    destruct (btn_idx <? 4) eqn:Hhi; [|done].
    apply Z.ltb_lt in Hy, Hhi. apply Z.leb_le in Hlo. lia.
  - pose proof (Z.mul_div_le ix btn_width Hbw) as Hdn.
    pose proof (Z.mul_succ_div_gt ix btn_width Hbw) as Hup.
    fold btn_idx in Hdn, Hup. clearbody btn_idx btn_width. nia.
  - intros fingers st Hmode. by apply on_hand_Navigate.
Qed.

Lemma select_button_range_checked_witness :
  4 ≤ 1280
  ∧ select_button 1280 1000 50 = Ok (Some 3)
  ∧ 3 * 320 ≤ 1000 < (3 + 1) * 320.
Proof.
  split; [lia|].
  apply (proj1 (select_button_range_checked 1280 1000 50 ltac:(lia)));
    [reflexivity | vm_compute; split; [discriminate | reflexivity]].
Defined.

(** Two fingers on the last button select the eraser. *)
Example peace_on_eraser :
  run 1280 [(peace 1000 50, None)] init
  = Ok {| xp := 0; yp := 0; current_color := (0, 0, 0); imgCanvas := [] |}.
Proof. vm_compute. reflexivity. Qed.

(** ** The trainer: angle normalisation *)

Section Pose.

Import PoseModule.
Local Open Scope Q_scope.

Lemma Qltb_lt (x y : Q) : Qltb x y = true ↔ x < y.
Proof.
  unfold Qltb. rewrite negb_true_iff, <- not_true_iff_false, Qle_bool_iff.
  split; [apply Qnot_le_lt | apply Qlt_not_le].
Qed.

Lemma Qltb_ge (x y : Q) : Qltb x y = false ↔ y <= x.
Proof. unfold Qltb. rewrite negb_false_iff, Qle_bool_iff. done. Qed.

Lemma normalize_range (raw : Q) :
  -360 <= raw <= 360 → 0 <= normalize raw <= 180.
Proof.
  intros [Hlo Hhi]. unfold normalize.
  destruct (Qltb raw 0) eqn:Hneg.
  - apply Qltb_lt in Hneg.
    destruct (Qltb 180 (raw + 360)) eqn:Hbig.
    + apply Qltb_lt in Hbig. split; lra.
    + apply Qltb_ge in Hbig. split; lra.
  - apply Qltb_ge in Hneg.
    destruct (Qltb 180 raw) eqn:Hbig.
    + apply Qltb_lt in Hbig. split; lra.
    + apply Qltb_ge in Hbig. split; lra.
Qed.

(** C8: a raw angle is a difference of two [atan2] values in degrees, so
    it lies between -360 and 360; its normalisation lies between 0 and
    180.  A raw -190 normalises to 170 and a raw 200 to 160. *)
Theorem normalize_in_0_180 (raw : Q) :
  -360 <= raw <= 360 →
  0 <= normalize raw <= 180
  ∧ normalize (-190) == 170
  ∧ normalize 200 == 160.
Proof.
  intros Hraw. split; [by apply normalize_range|]. split; reflexivity.
Qed.

Lemma normalize_in_0_180_witness :
  0 <= normalize (-190) <= 180
  ∧ normalize (-190) == 170
  ∧ normalize 200 == 160.
Proof. apply (normalize_in_0_180 (-190)). split; discriminate. Defined.

Section Rounding.

(** [findAngle] computes on floats.  Whatever the rounding of the two
    arithmetic steps is, as long as it is monotone and exact on 0, 180
    and 360, the normalised angle stays in range. *)
Variable rnd : Q → Q.
Hypothesis rnd_mono : ∀ x y, x <= y → rnd x <= rnd y.
Hypothesis rnd_0 : rnd 0 == 0.
Hypothesis rnd_180 : rnd 180 == 180.
Hypothesis rnd_360 : rnd 360 == 360.

Lemma normalize_rounded_range (raw : Q) :
  -360 <= raw <= 360 → 0 <= normalize_rounded rnd raw <= 180.
Proof.
  intros [Hlo Hhi]. unfold normalize_rounded.
  assert (Hpos : ∀ x, 0 <= x → 0 <= rnd x)
    by (intros x Hx; pose proof (rnd_mono 0 x); lra).
  assert (Hsmall : ∀ x, x <= 180 → rnd x <= 180)
    by (intros x Hx; pose proof (rnd_mono x 180); lra).
  destruct (Qltb raw 0) eqn:Hneg.
  - apply Qltb_lt in Hneg.
    assert (0 <= rnd (raw + 360)) by (apply Hpos; lra).
    assert (rnd (raw + 360) <= 360)
      by (pose proof (rnd_mono (raw + 360) 360); lra).
    destruct (Qltb 180 (rnd (raw + 360))) eqn:Hbig.
    + apply Qltb_lt in Hbig. split; [apply Hpos|apply Hsmall]; lra.
    + apply Qltb_ge in Hbig. split; lra.
  - apply Qltb_ge in Hneg.
    destruct (Qltb 180 raw) eqn:Hbig.
    + apply Qltb_lt in Hbig. split; [apply Hpos|apply Hsmall]; lra.
    + apply Qltb_ge in Hbig. split; lra.
Qed.

End Rounding.

Lemma normalize_rounded_exact (raw : Q) :
  normalize_rounded (λ x, x) raw = normalize raw.
Proof. reflexivity. Qed.

(** ** The trainer: the curl counter *)

(** One update of the counter. *)
Lemma count_rep_step (angle : Q) (self : PoseDetector) :
  let self' := (count_rep angle self).1 in
  (angle < 30 ∧ dir self = 0%Z →
     curl_count self' == curl_count self + (1 # 2) ∧ dir self' = 1%Z)
  ∧ (¬ (angle < 30 ∧ dir self = 0%Z) →
     curl_count self' = curl_count self)
  ∧ (160 < angle → dir self' = 0%Z).
Proof.
  unfold count_rep.
  destruct (Qltb 160 angle) eqn:Hdown; cbn [dir curl_count].
  - apply Qltb_lt in Hdown.
    assert (Qltb angle 30 = false) as -> by (apply Qltb_ge; lra).
    simpl. split; [intros [? _]; lra|]. done.
  - apply Qltb_ge in Hdown.
    destruct (Qltb angle 30) eqn:Hup; simpl.
    + apply Qltb_lt in Hup.
      destruct (dir self =? 0)%Z eqn:Hdir; simpl.
      * apply Z.eqb_eq in Hdir.
        split; [done|]. split; [tauto|]. intros; lra.
      * apply Z.eqb_neq in Hdir.
        split; [tauto|]. split; [done|]. intros; lra.
    + apply Qltb_ge in Hup.
      split; [intros [? _]; lra|]. split; [done|]. intros; lra.
Qed.

Lemma count_rep_monotone (angle : Q) (self : PoseDetector) :
  curl_count self <= curl_count (count_rep angle self).1.
Proof.
  destruct (count_rep_step angle self) as (Hup & Hstay & _).
  destruct (Qlt_le_dec angle 30) as [Hlt|Hge];
    [destruct (Z.eq_dec (dir self) 0%Z) as [Hd|Hd]|].
  - destruct Hup as [Hcount _]; [done|]. lra.
  - rewrite Hstay by tauto. lra.
  - rewrite Hstay by (intros [? _]; lra). lra.
Qed.

Lemma count_reps_monotone (angles : list Q) (self : PoseDetector) :
  curl_count self <= curl_count (count_reps angles self).
Proof.
  unfold count_reps. revert self.
  induction angles as [|angle rest IH]; intros self; simpl; [lra|].
  eapply Qle_trans; [apply count_rep_monotone | apply IH].
Qed.

(** C2: over any sequence of angle samples the count never decreases; one
    sample adds exactly one half when the angle is below 30 while the
    direction flag is 0 (down), and then sets the flag to 1 (up), and
    leaves the count as it is otherwise; a sample above 160 leaves the
    flag at 0 whatever it was.  The samples 170, 90, 20, 90, 170 from
    count 0 and flag 0 give the counts 0, 0, 1/2, 1/2, 1/2. *)
Theorem curl_count_half_steps (angles : list Q) (angle : Q)
    (self : PoseDetector) :
  curl_count self <= curl_count (count_reps angles self)
  ∧ (let self' := (count_rep angle self).1 in
     (angle < 30 ∧ dir self = 0%Z →
        curl_count self' == curl_count self + (1 # 2) ∧ dir self' = 1%Z)
     ∧ (¬ (angle < 30 ∧ dir self = 0%Z) →
        curl_count self' = curl_count self)
     ∧ (160 < angle → dir self' = 0%Z))
  ∧ count_trace [170; 90; 20; 90; 170] new_detector
    = [0; 0; 1 # 2; 1 # 2; 1 # 2]
  ∧ curl_count (count_reps [170; 90; 20; 90; 170] new_detector) = 1 # 2.
Proof.
  split; [apply count_reps_monotone|].
  split; [apply count_rep_step|].
  split; reflexivity.
Qed.

Lemma curl_count_half_steps_witness :
  curl_count (count_rep 20 new_detector).1
    == curl_count new_detector + (1 # 2)
  ∧ dir (count_rep 20 new_detector).1 = 1%Z.
Proof.
  apply (proj1 (proj1 (proj2 (curl_count_half_steps [] 20 new_detector)))).
  split; reflexivity.
Defined.


End Pose.

(** * Further properties *)

(** ** The landmark dictionary *)

Lemma lm_dict_snoc (l : list Landmark) (id x y : Z) :
  lm_dict (l ++ [(id, x, y)]) = <[id := (x, y)]> (lm_dict l).
Proof. unfold lm_dict. by rewrite foldl_app. Qed.

Lemma ids_app (l1 l2 : list Landmark) : ids (l1 ++ l2) = ids l1 ++ ids l2.
Proof. unfold ids. apply fmap_app. Qed.

Lemma lm_dict_foldl_notin (l : list Landmark) (d : gmap Z (Z * Z)) (k : Z) :
  k ∉ ids l →
  foldl (λ d '(id, x, y), <[id := (x, y)]> d) d l !! k = d !! k.
Proof.
  revert d. induction l as [|[[id x] y] l IH]; intros d Hk; simpl; [done|].
  change (ids ((id, x, y) :: l)) with (id :: ids l) in Hk.
  apply not_elem_of_cons in Hk as [Hne Hk].
  rewrite IH by done. by rewrite lookup_insert_ne.
Qed.

Lemma lm_dict_foldl_elem (l : list Landmark) (d : gmap Z (Z * Z)) (k x y : Z) :
  foldl (λ d '(id, x, y), <[id := (x, y)]> d) d l !! k = Some (x, y) →
  (d !! k = Some (x, y) ∧ k ∉ ids l)
  ∨ ∃ l1 l2, l = l1 ++ (k, x, y) :: l2 ∧ k ∉ ids l2.
Proof.
  revert d. induction l as [|[[id x'] y'] l IH]; intros d Hk; simpl in Hk.
  - left. split; [done|]. apply not_elem_of_nil.
  - apply IH in Hk as [[Hd Hnot]|(l1 & l2 & -> & Hnot)].
    + destruct (decide (id = k)) as [->|Hne].
      * rewrite lookup_insert_eq in Hd. injection Hd as -> ->.
        right. by exists [], l.
      * rewrite lookup_insert_ne in Hd by done. left. split; [done|].
        change (ids ((id, x', y') :: l)) with (id :: ids l).
        apply not_elem_of_cons. split; [congruence | done].
    + right. by exists ((id, x', y') :: l1), l2.
Qed.

(** The dictionary holds, for each id, the last entry with that id. *)
Lemma lm_dict_lookup_split (l : list Landmark) (k x y : Z) :
  lm_dict l !! k = Some (x, y)
  ↔ ∃ l1 l2, l = l1 ++ (k, x, y) :: l2 ∧ k ∉ ids l2.
Proof.
  split.
  - intros Hk. apply lm_dict_foldl_elem in Hk as [[Hd _]|H]; [|done].
    by rewrite lookup_empty in Hd.
  - intros (l1 & l2 & -> & Hnot). unfold lm_dict.
    rewrite foldl_app. simpl. rewrite lm_dict_foldl_notin by done.
    apply lookup_insert_eq.
Qed.

(** With unique ids, the dictionary is the list. *)
Lemma lm_dict_lookup_NoDup (l : list Landmark) (k x y : Z) :
  NoDup (ids l) →
  lm_dict l !! k = Some (x, y) ↔ (k, x, y) ∈ l.
Proof.
  intros Hnd. rewrite lm_dict_lookup_split. split.
  - intros (l1 & l2 & -> & _). apply elem_of_app. right. apply elem_of_cons. by left.
  - intros Hin. apply list_elem_of_split in Hin as (l1 & l2 & ->).
    exists l1, l2. split; [done|].
    rewrite ids_app in Hnd. apply NoDup_app in Hnd as (_ & _ & Hnd).
    change (ids ((k, x, y) :: l2)) with (k :: ids l2) in Hnd.
    by apply NoDup_cons in Hnd as [? _].
Qed.

(** X1: the dictionary the classifiers build from a landmark list holds, for
    each id, the coordinates of the last entry with that id and nothing
    else: an entry is found exactly when no later entry has its id, an
    entry appended to the list is found, and when no id occurs twice the
    entries found are the entries of the list. *)
Theorem lm_dict_lookup_last (l : list Landmark) (k x y : Z) :
  (lm_dict l !! k = Some (x, y)
   ↔ ∃ l1 l2, l = l1 ++ (k, x, y) :: l2 ∧ k ∉ ids l2)
  ∧ lm_dict (l ++ [(k, x, y)]) !! k = Some (x, y)
  ∧ (NoDup (ids l) → (lm_dict l !! k = Some (x, y) ↔ (k, x, y) ∈ l)).
Proof.
  split; [apply lm_dict_lookup_split|].
  split; [|apply lm_dict_lookup_NoDup].
  rewrite lm_dict_snoc. apply lookup_insert_eq.
Qed.

Lemma lm_dict_lookup_last_witness :
  lm_dict open_hand !! 8 = Some (265, 190) ↔ (8, 265, 190) ∈ open_hand.
Proof.
  apply (proj2 (proj2 (lm_dict_lookup_last open_hand 8 265 190))).
  apply (bool_decide_unpack _). vm_compute. exact I.
Defined.

(** ** The classifiers as functions of the dictionary *)

(** The three classifiers read a landmark list only through its dictionary
    and through whether it is empty. *)
Lemma classifiers_by_dict (l1 l2 : list Landmark) results handNo :
  lm_dict l1 = lm_dict l2 →
  (l1 = [] ↔ l2 = []) →
  Main.countFingers l1 results handNo = Main.countFingers l2 results handNo
  ∧ VirtualMouse.countFingers l1 results handNo
    = VirtualMouse.countFingers l2 results handNo
  ∧ VirtualPainter.fingersUpFromLm l1 results handNo
    = VirtualPainter.fingersUpFromLm l2 results handNo.
Proof.
  intros Hdict Hempty.
  destruct l1 as [|a1 l1], l2 as [|a2 l2];
    [done | by destruct (proj1 Hempty) | by destruct (proj2 Hempty) |].
  unfold Main.countFingers, VirtualMouse.countFingers,
    VirtualPainter.fingersUpFromLm.
  by rewrite Hdict.
Qed.

(** On a non-empty list, main.py's answer is fixed by the first missing id
    in reading order. *)
Lemma main_countFingers_first_missing lmList results handNo :
  lmList ≠ [] →
  Main.countFingers lmList results handNo
  = match first_missing (lm_dict lmList) with
    | Some k => Raise (KeyError k)
    | None =>
        let v := finger_vector (lm_dict lmList) (get_handType results handNo) in
        Ok (sum v, v)
    end.
Proof.
  intros Hne. unfold Main.countFingers.
  destruct lmList as [|lm0 rest]; [done|].
  set (lm := lm_dict (lm0 :: rest)).
  unfold first_missing, read_order, finger_vector, thumb_entry, finger_entry,
    dict_getitem, tipIds.
  cbn [for_each tail find map].
  change (8 - 2) with 6. change (12 - 2) with 10.
  change (16 - 2) with 14. change (20 - 2) with 18.
  destruct (lm !! 4); [|by destruct (is_Right _)].
  destruct (lm !! 3); [|by destruct (is_Right _)].
  destruct (lm !! 8); [|by destruct (is_Right _)].
  destruct (lm !! 6); [|by destruct (is_Right _)].
  destruct (lm !! 12); [|by destruct (is_Right _)].
  destruct (lm !! 10); [|by destruct (is_Right _)].
  destruct (lm !! 16); [|by destruct (is_Right _)].
  destruct (lm !! 14); [|by destruct (is_Right _)].
  destruct (lm !! 20); [|by destruct (is_Right _)].
  destruct (lm !! 18); by destruct (is_Right _).
Qed.

Lemma first_missing_Some (lm : gmap Z (Z * Z)) (k : Z) :
  first_missing lm = Some k →
  lm !! k = None
  ∧ ∃ before after,
      read_order = before ++ k :: after
      ∧ Forall (λ j, is_Some (lm !! j)) before.
Proof.
  unfold first_missing. generalize read_order as order.
  induction order as [|j order IH]; [done|]. simpl.
  destruct (lm !! j) as [p|] eqn:Hj.
  - intros Hfind. apply IH in Hfind as (Hk & before & after & -> & Hall).
    split; [done|]. exists (j :: before), after. split; [done|].
    apply Forall_cons_2; [by eexists | done].
  - intros [= <-]. split; [done|]. exists [], order. by split.
Qed.

Lemma first_missing_None (lm : gmap Z (Z * Z)) :
  first_missing lm = None → Forall (λ j, is_Some (lm !! j)) read_order.
Proof.
  unfold first_missing. generalize read_order as order.
  induction order as [|j order IH]; [intros; apply Forall_nil_2|]. simpl.
  destruct (lm !! j) as [p|] eqn:Hj; [|done].
  intros Hfind. apply Forall_cons_2; [by eexists | by apply IH].
Qed.

(** X2: what [countFingers] of main.py does on a non-empty landmark list.
    It reads the ids in the order 4, 3, 8, 6, 12, 10, 16, 14, 20, 18 and
    raises [KeyError k] for the first id [k] of that order that the list
    lacks, having found all ids before it; when the list has all ten ids it
    returns the finger vector and its sum.  These are the only outcomes. *)
Theorem main_countFingers_outcome lmList results handNo :
  lmList ≠ [] →
  (∃ k before after,
     Main.countFingers lmList results handNo = Raise (KeyError k)
     ∧ read_order = before ++ k :: after
     ∧ (k ∉ ids lmList)
     ∧ Forall (λ j, j ∈ ids lmList) before)
  ∨ (Main.countFingers lmList results handNo
       = (let v := finger_vector (lm_dict lmList)
                     (get_handType results handNo) in Ok (sum v, v))
     ∧ Forall (λ j, j ∈ ids lmList) read_order).
Proof.
  intros Hne. rewrite main_countFingers_first_missing by done.
  destruct (first_missing (lm_dict lmList)) as [k|] eqn:Hfirst.
  - left. apply first_missing_Some in Hfirst
      as (Hk & before & after & Horder & Hbefore).
    exists k, before, after. split; [done|]. split; [done|].
    split; [by apply lm_dict_None|].
    eapply Forall_impl; [exact Hbefore|]. intros j. apply lm_dict_is_Some.
  - right. split; [done|]. apply first_missing_None in Hfirst.
    eapply Forall_impl; [exact Hfirst|]. intros j. apply lm_dict_is_Some.
Qed.

Lemma main_countFingers_outcome_witness :
  (∃ k before after,
     Main.countFingers [(4, 40, 55); (3, 50, 60); (8, 10, 10)] None 0
       = Raise (KeyError k)
     ∧ read_order = before ++ k :: after
     ∧ (k ∉ ids [(4, 40, 55); (3, 50, 60); (8, 10, 10)])
     ∧ Forall (λ j, j ∈ ids [(4, 40, 55); (3, 50, 60); (8, 10, 10)]) before)
  ∨ (Main.countFingers [(4, 40, 55); (3, 50, 60); (8, 10, 10)] None 0
       = (let v := finger_vector
                     (lm_dict [(4, 40, 55); (3, 50, 60); (8, 10, 10)])
                     (get_handType None 0) in Ok (sum v, v))
     ∧ Forall (λ j, j ∈ ids [(4, 40, 55); (3, 50, 60); (8, 10, 10)])
         read_order).
Proof.
  apply (main_countFingers_outcome [(4, 40, 55); (3, 50, 60); (8, 10, 10)]
           None 0).
  discriminate.
Defined.

(** With one landmark of the index finger missing, the error names it. *)
Example main_countFingers_KeyError_6 :
  Main.countFingers [(4, 40, 55); (3, 50, 60); (8, 10, 10)] None 0
  = Raise (KeyError 6).
Proof. vm_compute. reflexivity. Qed.

(** ** The shape of the finger vector *)

Lemma finger_vector_bits lm handType :
  Forall (λ b, b = 0 ∨ b = 1) (finger_vector lm handType).
Proof.
  unfold finger_vector, thumb_entry, finger_entry, tipIds. simpl.
  repeat apply Forall_cons_2; try apply Forall_nil_2;
    repeat case_match; first [apply bit_cases | by left].
Qed.

Lemma sum_bits (v : list Z) :
  Forall (λ b, b = 0 ∨ b = 1) v →
  sum v = Z.of_nat (length (filter (λ b, b = 1) v))
  ∧ 0 ≤ sum v ≤ Z.of_nat (length v).
Proof.
  unfold sum. induction 1 as [|b v [->| ->] _ [IHsum IHle]].
  - split; [done | simpl; lia].
  - rewrite filter_cons_False by done. cbn [foldr length]. split; lia.
  - rewrite filter_cons_True by done. cbn [foldr length]. split; lia.
Qed.

(** X3: [fingersUpFromLm] never raises and always returns five entries;
    [countFingers] of VirtualMouse.py never raises either and returns the
    same vector with its sum, except on the empty landmark list, where it
    returns [(0, [])].  Every entry is 0 or 1, and the total is the number
    of entries that are 1, between 0 and 5. *)
Theorem finger_vector_shape lmList results handNo :
  ∃ v,
    VirtualPainter.fingersUpFromLm lmList results handNo = Ok v
    ∧ VirtualMouse.countFingers lmList results handNo
      = Ok (if bool_decide (lmList = []) then (0, []) else (sum v, v))
    ∧ length v = 5%nat
    ∧ Forall (λ b, b = 0 ∨ b = 1) v
    ∧ sum v = Z.of_nat (length (filter (λ b, b = 1) v))
    ∧ 0 ≤ sum v ≤ 5.
Proof.
  exists (finger_vector (lm_dict lmList) (get_handType results handNo)).
  split; [apply painter_fingersUp_vector|].
  split.
  { case_bool_decide as Hl; [by subst|]. by apply mouse_countFingers_vector. }
  split; [done|].
  pose proof (finger_vector_bits (lm_dict lmList)
                (get_handType results handNo)) as Hbits.
  split; [done|].
  destruct (sum_bits _ Hbits) as [Hsum Hle]. split; [done|]. exact Hle.
Qed.

(** ** What the classifiers read *)

Lemma finger_vector_ext (lm1 lm2 : gmap Z (Z * Z)) handType :
  (∀ k, k ∈ required_ids → lm1 !! k = lm2 !! k) →
  finger_vector lm1 handType = finger_vector lm2 handType.
Proof.
  intros Hext. unfold finger_vector, thumb_entry, finger_entry, tipIds. simpl.
  rewrite !Hext by in_list. done.
Qed.

Lemma first_missing_ext (lm1 lm2 : gmap Z (Z * Z)) :
  (∀ k, k ∈ required_ids → lm1 !! k = lm2 !! k) →
  first_missing lm1 = first_missing lm2.
Proof.
  intros Hext. unfold first_missing, read_order. simpl.
  rewrite !Hext by in_list. done.
Qed.

(** X4: the classifiers read nothing but the ten landmarks 3, 4, 6, 8, 10,
    12, 14, 16, 18 and 20: two non-empty landmark lists whose dictionaries
    agree on these ids get the same answer, or the same [KeyError], from
    each of the three classifiers. *)
Theorem classifiers_read_required_ids (l1 l2 : list Landmark) results handNo :
  l1 ≠ [] → l2 ≠ [] →
  (∀ k, k ∈ required_ids → lm_dict l1 !! k = lm_dict l2 !! k) →
  Main.countFingers l1 results handNo = Main.countFingers l2 results handNo
  ∧ VirtualMouse.countFingers l1 results handNo
    = VirtualMouse.countFingers l2 results handNo
  ∧ VirtualPainter.fingersUpFromLm l1 results handNo
    = VirtualPainter.fingersUpFromLm l2 results handNo.
Proof.
  intros Hne1 Hne2 Hext.
  rewrite !main_countFingers_first_missing, !mouse_countFingers_vector,
    !painter_fingersUp_vector by done.
  by rewrite (finger_vector_ext _ _ _ Hext), (first_missing_ext _ _ Hext).
Qed.

Lemma classifiers_read_required_ids_witness :
  Main.countFingers open_hand right_hand 0
    = Main.countFingers ((0, 0, 0) :: (21, 7, 7) :: open_hand) right_hand 0
  ∧ VirtualMouse.countFingers open_hand right_hand 0
    = VirtualMouse.countFingers ((0, 0, 0) :: (21, 7, 7) :: open_hand)
        right_hand 0
  ∧ VirtualPainter.fingersUpFromLm open_hand right_hand 0
    = VirtualPainter.fingersUpFromLm ((0, 0, 0) :: (21, 7, 7) :: open_hand)
        right_hand 0.
Proof.
  apply (classifiers_read_required_ids open_hand
           ((0, 0, 0) :: (21, 7, 7) :: open_hand) right_hand 0);
    [discriminate | discriminate |].
  intros k Hk. unfold required_ids in Hk.
  rewrite !elem_of_cons, elem_of_nil in Hk.
  destruct Hk as [->|[->|[->|[->|[->|[->|[->|[->|[->|[->|[]]]]]]]]]]];
    vm_compute; reflexivity.
Defined.

(** ** Reordering, moving and mirroring a hand *)

Lemma lm_dict_Permutation (l1 l2 : list Landmark) :
  NoDup (ids l1) → l1 ≡ₚ l2 → lm_dict l1 = lm_dict l2.
Proof.
  intros Hnd Hperm.
  assert (Hnd2 : NoDup (ids l2)).
  { unfold ids in *. by rewrite <- Hperm. }
  apply map_eq. intros k. apply option_eq. intros [x y].
  rewrite !lm_dict_lookup_NoDup by done. by rewrite Hperm.
Qed.

(** X5: when no id occurs twice, the order of the landmarks in the list
    does not matter: each classifier gives the same answer on any
    reordering of the list. *)
Theorem classifiers_Permutation (l1 l2 : list Landmark) results handNo :
  NoDup (ids l1) →
  l1 ≡ₚ l2 →
  Main.countFingers l1 results handNo = Main.countFingers l2 results handNo
  ∧ VirtualMouse.countFingers l1 results handNo
    = VirtualMouse.countFingers l2 results handNo
  ∧ VirtualPainter.fingersUpFromLm l1 results handNo
    = VirtualPainter.fingersUpFromLm l2 results handNo.
Proof.
  intros Hnd Hperm. apply classifiers_by_dict.
  - by apply lm_dict_Permutation.
  - split; intros ->.
    + by apply Permutation_nil_l in Hperm.
    + by apply Permutation_nil_r in Hperm.
Qed.

Lemma classifiers_Permutation_witness :
  Main.countFingers open_hand right_hand 0
    = Main.countFingers (reverse open_hand) right_hand 0
  ∧ VirtualMouse.countFingers open_hand right_hand 0
    = VirtualMouse.countFingers (reverse open_hand) right_hand 0
  ∧ VirtualPainter.fingersUpFromLm open_hand right_hand 0
    = VirtualPainter.fingersUpFromLm (reverse open_hand) right_hand 0.
Proof.
  apply (classifiers_Permutation open_hand (reverse open_hand) right_hand 0).
  - apply (bool_decide_unpack _). vm_compute. exact I.
  - symmetry. apply reverse_Permutation.
Defined.

Lemma lm_dict_fmap (g : Z → Z → Z * Z) (l : list Landmark) :
  lm_dict ((λ '(id, x, y), (id, (g x y).1, (g x y).2)) <$> l)
  = (λ p : Z * Z, g p.1 p.2) <$> lm_dict l.
Proof.
  induction l as [|[[id x] y] l IH] using rev_ind.
  - unfold lm_dict. simpl. by rewrite fmap_empty.
  - rewrite fmap_app. simpl. rewrite !lm_dict_snoc, IH, fmap_insert. simpl.
    by destruct (g x y).
Qed.

Lemma lm_dict_translate dx dy (l : list Landmark) :
  lm_dict (translate dx dy l)
  = (λ p : Z * Z, (p.1 + dx, p.2 + dy)) <$> lm_dict l.
Proof. apply (lm_dict_fmap (λ x y, (x + dx, y + dy))). Qed.

Lemma lm_dict_mirror w (l : list Landmark) :
  lm_dict (mirror w l) = (λ p : Z * Z, (w - 1 - p.1, p.2)) <$> lm_dict l.
Proof. apply (lm_dict_fmap (λ x y, (w - 1 - x, y))). Qed.

Lemma first_missing_fmap (g : Z * Z → Z * Z) (lm : gmap Z (Z * Z)) :
  first_missing (g <$> lm) = first_missing lm.
Proof.
  unfold first_missing, read_order. simpl. rewrite !lookup_fmap.
  repeat (destruct (lm !! _); simpl; [|done]). done.
Qed.

Lemma finger_vector_translate dx dy (lm : gmap Z (Z * Z)) handType :
  finger_vector ((λ p : Z * Z, (p.1 + dx, p.2 + dy)) <$> lm) handType
  = finger_vector lm handType.
Proof.
  assert (Hlt : ∀ a b d, (a + d <? b + d) = (a <? b))
    by (intros a b d; destruct (Z.ltb_spec a b), (Z.ltb_spec (a + d) (b + d));
        (done || lia)).
  unfold finger_vector, thumb_entry, finger_entry, tipIds. simpl.
  rewrite !lookup_fmap.
  repeat (destruct (lm !! _); simpl);
    rewrite ?Z.gtb_ltb, ?Hlt; reflexivity.
Qed.

(** X6: the classifiers do not depend on where the hand is: moving every
    landmark by the same [(dx, dy)] changes the answer of none of them. *)
Theorem classifiers_translate dx dy (lmList : list Landmark) results handNo :
  Main.countFingers (translate dx dy lmList) results handNo
    = Main.countFingers lmList results handNo
  ∧ VirtualMouse.countFingers (translate dx dy lmList) results handNo
    = VirtualMouse.countFingers lmList results handNo
  ∧ VirtualPainter.fingersUpFromLm (translate dx dy lmList) results handNo
    = VirtualPainter.fingersUpFromLm lmList results handNo.
Proof.
  destruct lmList as [|lm0 rest]; [done|].
  assert (Hne : translate dx dy (lm0 :: rest) ≠ []) by done.
  rewrite !main_countFingers_first_missing, !mouse_countFingers_vector,
    !painter_fingersUp_vector by done.
  rewrite lm_dict_translate, first_missing_fmap, finger_vector_translate.
  done.
Qed.

Lemma finger_vector_mirror w (lm : gmap Z (Z * Z)) handType handType' :
  is_Right handType' = negb (is_Right handType) →
  finger_vector ((λ p : Z * Z, (w - 1 - p.1, p.2)) <$> lm) handType'
  = finger_vector lm handType.
Proof.
  intros Hswap.
  assert (Hflip : ∀ a b, (w - 1 - a <? w - 1 - b) = (b <? a))
    by (intros a b; destruct (Z.ltb_spec b a),
          (Z.ltb_spec (w - 1 - a) (w - 1 - b)); (done || lia)).
  unfold finger_vector, thumb_entry, finger_entry, tipIds. simpl.
  rewrite !lookup_fmap, Hswap.
  repeat (destruct (lm !! _); simpl);
    destruct (is_Right handType); simpl;
    rewrite ?Z.gtb_ltb, ?Hflip; reflexivity.
Qed.

(** X7: mirroring the image left to right and swapping the "Right" label
    for any other one, or back, changes the answer of none of the
    classifiers: the thumb's comparison turns round with the label, and the
    four fingers only look at heights. *)
Theorem classifiers_mirror w (lmList : list Landmark) results results' handNo :
  is_Right (get_handType results' handNo)
    = negb (is_Right (get_handType results handNo)) →
  Main.countFingers (mirror w lmList) results' handNo
    = Main.countFingers lmList results handNo
  ∧ VirtualMouse.countFingers (mirror w lmList) results' handNo
    = VirtualMouse.countFingers lmList results handNo
  ∧ VirtualPainter.fingersUpFromLm (mirror w lmList) results' handNo
    = VirtualPainter.fingersUpFromLm lmList results handNo.
Proof.
  intros Hswap. destruct lmList as [|lm0 rest]; [done|].
  assert (Hne : mirror w (lm0 :: rest) ≠ []) by done.
  rewrite !main_countFingers_first_missing, !mouse_countFingers_vector,
    !painter_fingersUp_vector by done.
  rewrite lm_dict_mirror, first_missing_fmap.
  by rewrite (finger_vector_mirror _ _ _ _ Hswap).
Qed.

Lemma classifiers_mirror_witness :
  Main.countFingers (mirror 1280 open_hand) left_hand 0
    = Main.countFingers open_hand right_hand 0
  ∧ VirtualMouse.countFingers (mirror 1280 open_hand) left_hand 0
    = VirtualMouse.countFingers open_hand right_hand 0
  ∧ VirtualPainter.fingersUpFromLm (mirror 1280 open_hand) left_hand 0
    = VirtualPainter.fingersUpFromLm open_hand right_hand 0.
Proof.
  apply (classifiers_mirror 1280 open_hand right_hand left_hand 0).
  reflexivity.
Defined.

(** ** The hand detector's landmark list *)

Lemma numbered_lookup (positions : list (Z * Z)) (i : nat) :
  numbered positions !! i
  = (λ p : Z * Z, (Z.of_nat i, p.1, p.2)) <$> positions !! i.
Proof.
  unfold numbered. rewrite list_lookup_imap.
  by destruct (positions !! i) as [[cx cy]|].
Qed.

Lemma numbered_length (positions : list (Z * Z)) :
  length (numbered positions) = length positions.
Proof. unfold numbered. apply length_imap. Qed.

Lemma numbered_ids (positions : list (Z * Z)) :
  ids (numbered positions) = Z.of_nat <$> seq 0 (length positions).
Proof.
  apply list_eq. intros i. unfold ids.
  rewrite !list_lookup_fmap, numbered_lookup.
  destruct (positions !! i) as [p|] eqn:Hp; simpl.
  - rewrite lookup_seq_lt by (by eapply lookup_lt_Some). done.
  - rewrite lookup_seq_ge by (by apply lookup_ge_None). done.
Qed.

Lemma numbered_NoDup (positions : list (Z * Z)) : NoDup (ids (numbered positions)).
Proof.
  rewrite numbered_ids. apply NoDup_fmap_2; [apply _ | apply NoDup_seq].
Qed.

(** In a numbered list, reading by id is reading by position. *)
Lemma numbered_dict (positions : list (Z * Z)) (i : nat) :
  lm_dict (numbered positions) !! Z.of_nat i = positions !! i.
Proof.
  apply option_eq. intros [x y].
  rewrite lm_dict_lookup_NoDup by apply numbered_NoDup.
  rewrite list_elem_of_lookup. split.
  - intros [j Hj]. rewrite numbered_lookup in Hj.
    destruct (positions !! j) as [[x' y']|] eqn:Hp; [|done].
    simpl in Hj. injection Hj as Hij -> ->.
    apply Nat2Z.inj in Hij. by subst.
  - intros Hp. exists i. rewrite numbered_lookup, Hp. done.
Qed.

Lemma numbered_dict_outside (positions : list (Z * Z)) (k : Z) :
  k < 0 ∨ Z.of_nat (length positions) ≤ k →
  lm_dict (numbered positions) !! k = None.
Proof.
  intros Hk. apply lm_dict_None. rewrite numbered_ids.
  intros Hin. apply list_elem_of_fmap in Hin as (i & -> & Hi).
  apply elem_of_seq in Hi. lia.
Qed.

Lemma foldl_min_spec (xs : list Z) (x : Z) :
  foldl Z.min x xs ∈ x :: xs ∧ ∀ y, y ∈ x :: xs → foldl Z.min x xs ≤ y.
Proof.
  revert x. induction xs as [|a xs IH]; intros x; simpl.
  - split; [apply elem_of_cons; by left|].
    intros y Hy. apply elem_of_cons in Hy as [->|Hy]; [lia|].
    by apply elem_of_nil in Hy.
  - destruct (IH (Z.min x a)) as [Hin Hle]. split.
    + apply elem_of_cons in Hin as [Hm|Hin].
      * rewrite Hm. destruct (Z.min_spec x a) as [[_ ->]|[_ ->]];
          rewrite !elem_of_cons; auto.
      * rewrite !elem_of_cons; auto.
    + intros y Hy.
      assert (foldl Z.min (Z.min x a) xs ≤ Z.min x a)
        by (apply Hle, elem_of_cons; by left).
      rewrite !elem_of_cons in Hy. destruct Hy as [->|[->|Hy]]; [lia..|].
      apply Hle, elem_of_cons. by right.
Qed.

Lemma foldl_max_spec (xs : list Z) (x : Z) :
  foldl Z.max x xs ∈ x :: xs ∧ ∀ y, y ∈ x :: xs → y ≤ foldl Z.max x xs.
Proof.
  revert x. induction xs as [|a xs IH]; intros x; simpl.
  - split; [apply elem_of_cons; by left|].
    intros y Hy. apply elem_of_cons in Hy as [->|Hy]; [lia|].
    by apply elem_of_nil in Hy.
  - destruct (IH (Z.max x a)) as [Hin Hle]. split.
    + apply elem_of_cons in Hin as [Hm|Hin].
      * rewrite Hm. destruct (Z.max_spec x a) as [[_ ->]|[_ ->]];
          rewrite !elem_of_cons; auto.
      * rewrite !elem_of_cons; auto.
    + intros y Hy.
      assert (Z.max x a ≤ foldl Z.max (Z.max x a) xs)
        by (apply Hle, elem_of_cons; by left).
      rewrite !elem_of_cons in Hy. destruct Hy as [->|[->|Hy]]; [lia..|].
      apply Hle, elem_of_cons. by right.
Qed.

Lemma py_min_spec (xs : list Z) (m : Z) :
  py_min xs = Some m → m ∈ xs ∧ ∀ y, y ∈ xs → m ≤ y.
Proof.
  destruct xs as [|x xs]; [done|]. intros [= <-]. apply foldl_min_spec.
Qed.

Lemma py_max_spec (xs : list Z) (m : Z) :
  py_max xs = Some m → m ∈ xs ∧ ∀ y, y ∈ xs → y ≤ m.
Proof.
  destruct xs as [|x xs]; [done|]. intros [= <-]. apply foldl_max_spec.
Qed.

(** What [findPosition] returns when it returns. *)
Lemma findPosition_Done hands handNo lmList bbox :
  HandTrackingModule.findPosition hands handNo = Done (lmList, bbox) →
  (hands = [] ∧ lmList = [] ∧ bbox = None)
  ∨ ∃ hand xmin ymin xmax ymax,
      list_getitem_int hands handNo = Some hand ∧ hand ≠ []
      ∧ lmList = numbered hand
      ∧ bbox = Some (xmin, ymin, xmax, ymax)
      ∧ py_min ((λ x : Landmark, x.1.2) <$> lmList) = Some xmin
      ∧ py_max ((λ x : Landmark, x.1.2) <$> lmList) = Some xmax
      ∧ py_min ((λ x : Landmark, x.2) <$> lmList) = Some ymin
      ∧ py_max ((λ x : Landmark, x.2) <$> lmList) = Some ymax.
Proof.
  unfold HandTrackingModule.findPosition.
  destruct hands as [|h0 hs]; [intros [= <- <-]; by left|].
  destruct (list_getitem_int (h0 :: hs) handNo) as [hand|]; [|done].
  change (imap _ hand) with (numbered hand).
  destruct (py_min ((λ x : Landmark, x.1.2) <$> numbered hand)) as [xmin|] eqn:Hx0;
    [|done].
  destruct (py_max ((λ x : Landmark, x.1.2) <$> numbered hand)) as [xmax|] eqn:Hx1;
    [|done].
  destruct (py_min ((λ x : Landmark, x.2) <$> numbered hand)) as [ymin|] eqn:Hy0;
    [|done].
  destruct (py_max ((λ x : Landmark, x.2) <$> numbered hand)) as [ymax|] eqn:Hy1;
    [|done].
  intros [= <- <-]. right. exists hand, xmin, ymin, xmax, ymax.
  repeat (split; [done|]). split; [|done].
  intros ->. discriminate Hx0.
Qed.

(** X8: in the list [findPosition] returns, the landmark at position [i]
    has id [i]: the ids are 0, 1, ... without repetition, and looking a
    landmark up by id in the classifiers' dictionary gives the entry at that
    position of the list; ids outside the list are not in the dictionary. *)
Theorem findPosition_position_is_id hands handNo lmList bbox :
  HandTrackingModule.findPosition hands handNo = Done (lmList, bbox) →
  ids lmList = Z.of_nat <$> seq 0 (length lmList)
  ∧ NoDup (ids lmList)
  ∧ (∀ i : nat,
       lm_dict lmList !! Z.of_nat i
       = (λ lm : Landmark, (lm.1.2, lm.2)) <$> lmList !! i)
  ∧ (∀ k, k < 0 ∨ Z.of_nat (length lmList) ≤ k → lm_dict lmList !! k = None).
Proof.
  intros Hfind.
  apply findPosition_Done in Hfind
    as [(_ & -> & _)|(hand & b0 & b1 & b2 & b3 & _ & _ & -> & _)].
  - split; [done|]. split; [apply NoDup_nil_2|]. split; [done|].
    intros k _. apply lookup_empty.
  - split; [by rewrite numbered_ids, numbered_length|].
    split; [apply numbered_NoDup|]. split.
    + intros i. rewrite numbered_dict, numbered_lookup.
      by destruct (hand !! i) as [[cx cy]|].
    + intros k Hk. apply numbered_dict_outside.
      by rewrite numbered_length in Hk.
Qed.

Lemma findPosition_position_is_id_witness :
  ids open_hand = Z.of_nat <$> seq 0 (length open_hand)
  ∧ NoDup (ids open_hand)
  ∧ (∀ i : nat,
       lm_dict open_hand !! Z.of_nat i
       = (λ lm : Landmark, (lm.1.2, lm.2)) <$> open_hand !! i)
  ∧ (∀ k, k < 0 ∨ Z.of_nat (length open_hand) ≤ k →
          lm_dict open_hand !! k = None).
Proof.
  apply (findPosition_position_is_id [open_hand_positions] 0 open_hand
           (Some (190, 175, 366, 400))).
  vm_compute. reflexivity.
Defined.

(** X9: the box [findPosition] returns with a hand contains every landmark
    of the list, and each of its four sides passes through one. *)
Theorem findPosition_bbox hands handNo lmList xmin ymin xmax ymax :
  HandTrackingModule.findPosition hands handNo
    = Done (lmList, Some (xmin, ymin, xmax, ymax)) →
  (∀ id x y, (id, x, y) ∈ lmList → xmin ≤ x ≤ xmax ∧ ymin ≤ y ≤ ymax)
  ∧ (∃ id y, (id, xmin, y) ∈ lmList) ∧ (∃ id y, (id, xmax, y) ∈ lmList)
  ∧ (∃ id x, (id, x, ymin) ∈ lmList) ∧ (∃ id x, (id, x, ymax) ∈ lmList).
Proof.
  intros Hfind.
  apply findPosition_Done in Hfind
    as [(_ & _ & ?)|(hand & ? & ? & ? & ? & _ & _ & _ & Hbox
                     & Hx0 & Hx1 & Hy0 & Hy1)]; [done|].
  injection Hbox as <- <- <- <-.
  apply py_min_spec in Hx0 as [Hx0 Hx0le], Hy0 as [Hy0 Hy0le].
  apply py_max_spec in Hx1 as [Hx1 Hx1le], Hy1 as [Hy1 Hy1le].
  split.
  - intros id x y Hin.
    assert (x ∈ (λ lm : Landmark, lm.1.2) <$> lmList)
      by (apply list_elem_of_fmap; by exists (id, x, y)).
    assert (y ∈ (λ lm : Landmark, lm.2) <$> lmList)
      by (apply list_elem_of_fmap; by exists (id, x, y)).
    split; split; auto.
  - apply list_elem_of_fmap in Hx0 as ([[i0 a0] b0] & Hxmin & Hin0).
    apply list_elem_of_fmap in Hx1 as ([[i1 a1] b1] & Hxmax & Hin1).
    apply list_elem_of_fmap in Hy0 as ([[i2 a2] b2] & Hymin & Hin2).
    apply list_elem_of_fmap in Hy1 as ([[i3 a3] b3] & Hymax & Hin3).
    simpl in Hxmin, Hxmax, Hymin, Hymax. subst.
    repeat split; do 2 eexists; eassumption.
Qed.

Lemma findPosition_bbox_witness :
  (∀ id x y, (id, x, y) ∈ open_hand → 190 ≤ x ≤ 366 ∧ 175 ≤ y ≤ 400)
  ∧ (∃ id y, (id, 190, y) ∈ open_hand) ∧ (∃ id y, (id, 366, y) ∈ open_hand)
  ∧ (∃ id x, (id, x, 175) ∈ open_hand) ∧ (∃ id x, (id, x, 400) ∈ open_hand).
Proof.
  apply (findPosition_bbox [open_hand_positions] 0 open_hand 190 175 366 400).
  vm_compute. reflexivity.
Defined.

(** Indexing by an int: an index from [0] up picks from the front, one
    from [-1] down picks from the end, and any other index finds nothing. *)
Lemma list_getitem_int_spec {A : Type} (l : list A) (i : Z) (a : A) :
  list_getitem_int l i = Some a
  ↔ ∃ n : nat,
      l !! n = Some a
      ∧ (i = Z.of_nat n ∨ i = Z.of_nat n - Z.of_nat (length l)).
Proof.
  unfold list_getitem_int. split.
  - destruct (Z.ltb_spec i 0) as [Hneg|Hpos].
    + destruct (Z.ltb_spec (Z.of_nat (length l) + i) 0); [done|].
      intros Hl. eexists. split; [exact Hl|]. right. lia.
    + destruct (Z.ltb_spec i 0); [lia|].
      intros Hl. eexists. split; [exact Hl|]. left. lia.
  - intros (n & Hl & Hi). pose proof (lookup_lt_Some _ _ _ Hl) as Hlt.
    destruct Hi as [-> | ->].
    + destruct (Z.ltb_spec (Z.of_nat n) 0); [lia|].
      destruct (Z.ltb_spec (Z.of_nat n) 0); [lia|]. by rewrite Nat2Z.id.
    + destruct (Z.ltb_spec (Z.of_nat n - Z.of_nat (length l)) 0); [|lia].
      replace (Z.of_nat (length l) + (Z.of_nat n - Z.of_nat (length l)))
        with (Z.of_nat n) by lia.
      destruct (Z.ltb_spec (Z.of_nat n) 0); [lia|]. by rewrite Nat2Z.id.
Qed.

Lemma list_getitem_int_None {A : Type} (l : list A) (i : Z) :
  list_getitem_int l i = None
  ↔ i < - Z.of_nat (length l) ∨ Z.of_nat (length l) ≤ i.
Proof.
  unfold list_getitem_int.
  destruct (Z.ltb_spec i 0) as [Hneg|Hpos].
  - destruct (Z.ltb_spec (Z.of_nat (length l) + i) 0) as [Hlow|Hin].
    + split; [intros _; left; lia | done].
    + rewrite lookup_ge_None. lia.
  - destruct (Z.ltb_spec i 0); [lia|]. rewrite lookup_ge_None. lia.
Qed.

Lemma list_getitem_int_negative {A : Type} (l : list A) (i : Z) :
  - Z.of_nat (length l) ≤ i < 0 →
  list_getitem_int l i = list_getitem_int l (Z.of_nat (length l) + i).
Proof.
  intros Hi. unfold list_getitem_int.
  generalize (Z.of_nat (length l)) Hi. intros n Hn.
  destruct (Z.ltb_spec i 0); [|lia].
  destruct (Z.ltb_spec (n + i) 0); [lia|]. cbv zeta.
  destruct (Z.ltb_spec (n + i) 0); [lia | done].
Qed.

(** X10: the two exceptions of [findPosition]'s own reads.  With a hand
    detected, [multi_hand_landmarks[handNo]] raises [IndexError] exactly
    when [handNo] is outside [-n .. n - 1] for [n] hands, a negative
    [handNo] counting the hands from the end; [min] raises [ValueError]
    exactly when the hand picked has no landmark.  With no hand detected
    the function returns two empty lists whatever [handNo] is. *)
Theorem findPosition_failures (hands : list (list (Z * Z))) (handNo : Z) :
  (HandTrackingModule.findPosition hands handNo = Fails (Py IndexError)
   ↔ hands ≠ []
     ∧ (handNo < - Z.of_nat (length hands)
        ∨ Z.of_nat (length hands) ≤ handNo))
  ∧ (HandTrackingModule.findPosition hands handNo = Fails ValueError
     ↔ ∃ n : nat,
         hands !! n = Some []
         ∧ (handNo = Z.of_nat n
            ∨ handNo = Z.of_nat n - Z.of_nat (length hands)))
  ∧ (- Z.of_nat (length hands) ≤ handNo < 0 →
     HandTrackingModule.findPosition hands handNo
     = HandTrackingModule.findPosition hands
         (Z.of_nat (length hands) + handNo))
  ∧ HandTrackingModule.findPosition [] handNo = Done ([], None).
Proof.
  split; [|split; [|split; [|done]]].
  - unfold HandTrackingModule.findPosition.
    destruct hands as [|h0 hs]; [split; [done | by intros [? _]]|].
    rewrite <- list_getitem_int_None.
    destruct (list_getitem_int (h0 :: hs) handNo) as [hand|].
    + split; [|by intros [_ ?]].
      destruct hand as [|[cx cy] hand];
        cbn [fmap list_fmap imap py_min py_max]; done.
    + split; done.
  - unfold HandTrackingModule.findPosition.
    destruct hands as [|h0 hs].
    { split; [done|]. intros (n & Hl & _). by rewrite lookup_nil in Hl. }
    rewrite <- list_getitem_int_spec.
    destruct (list_getitem_int (h0 :: hs) handNo) as [hand|]; [|done].
    destruct hand as [|[cx cy] hand];
      cbn [fmap list_fmap imap py_min py_max]; split; done.
  - intros Hneg. unfold HandTrackingModule.findPosition.
    destruct hands as [|h0 hs]; [done|].
    by rewrite <- list_getitem_int_negative.
Qed.

Lemma findPosition_failures_witness :
  HandTrackingModule.findPosition [open_hand_positions; []] (-1)
  = Fails ValueError.
Proof.
  apply (proj1 (proj2
           (findPosition_failures [open_hand_positions; []] (-1)))).
  exists 1%nat. split; [reflexivity | right; reflexivity].
Defined.

(** ** The painter: what a frame can do *)

Lemma on_hand_effect w fingers ix iy st st' :
  on_hand w fingers ix iy st = Ok st' → frame_effect ix iy st st'.
Proof.
  intros Hon.
  destruct (resolveMode fingers) as [mode|] eqn:Hmode;
    [|unfold on_hand in Hon; by rewrite Hmode in Hon].
  destruct mode.
  - unfold on_hand in Hon. rewrite Hmode, bind_Ok in Hon.
    destruct (select_button w ix iy) as [[btn_idx|]|]; [| |done];
      rewrite bind_Ok in Hon.
    + unfold list_getitem in Hon.
      destruct (colors !! Z.to_nat btn_idx) as [c|] eqn:Hc; [|done].
      injection Hon as <-. apply effect_select.
      by eapply list_elem_of_lookup_2.
    + injection Hon as <-. apply effect_lift.
  - rewrite on_hand_Draw in Hon by done. injection Hon as <-.
    apply effect_draw.
  - rewrite on_hand_Idle in Hon by done. injection Hon as <-.
    apply effect_lift.
Qed.

(** A frame that returns either had no hand and changed nothing, or had at
    least 13 landmarks and did what its mode says at the landmark in
    position 8. *)
Lemma frame_Ok_inv w lmList results st st' :
  frame w lmList results st = Ok st' →
  (lmList = [] ∧ st' = st)
  ∨ ∃ id ix iy,
      (13 ≤ length lmList)%nat
      ∧ lmList !! 8%nat = Some (id, ix, iy)
      ∧ on_hand w (finger_vector (lm_dict lmList) (get_handType results 0))
          ix iy st = Ok st'.
Proof.
  unfold frame. destruct lmList as [|lm0 rest]; [intros [= <-]; by left|].
  rewrite painter_fingersUp_vector, bind_Ok. unfold list_getitem.
  destruct ((lm0 :: rest) !! 8%nat) as [[[id8 ix] iy]|] eqn:H8; [|done].
  rewrite bind_Ok.
  destruct ((lm0 :: rest) !! 12%nat) as [[[id12 mx] my]|] eqn:H12; [|done].
  rewrite bind_Ok. intros Hon. right. exists id8, ix, iy.
  split; [|done]. apply lookup_lt_Some in H12. lia.
Qed.

Lemma frame_effect_inv w lmList results st st' :
  frame w lmList results st = Ok st' →
  st' = st ∨ ∃ ix iy, frame_effect ix iy st st'.
Proof.
  intros Hframe. apply frame_Ok_inv in Hframe as [[_ ->]|(id & ix & iy & _ & _ & Hon)].
  - by left.
  - right. exists ix, iy. by eapply on_hand_effect.
Qed.

Lemma run_cons w lmList results rest st :
  run w ((lmList, results) :: rest) st
  = frame w lmList results st ≫= run w rest.
Proof. reflexivity. Qed.

Lemma frame_canvas_grows w lmList results st st' :
  frame w lmList results st = Ok st' →
  ∃ new, imgCanvas st' = imgCanvas st ++ new ∧ (length new ≤ 1)%nat.
Proof.
  intros Hframe.
  apply frame_effect_inv in Hframe as [->|(ix & iy & [|c Hc|])].
  - exists []. rewrite app_nil_r. split; [done | simpl; lia].
  - exists []. rewrite app_nil_r. split; [done | simpl; lia].
  - exists []. rewrite app_nil_r. split; [done | simpl; lia].
  - eexists [_]. split; [done | simpl; lia].
Qed.

(** X11: the canvas only grows.  Over any session that does not raise, the
    strokes present at the start are still there, in place, at the end, and
    at most one stroke was added per frame: nothing is ever removed or
    redrawn, the eraser too only adds strokes. *)
Theorem run_canvas_grows w frames st st' :
  run w frames st = Ok st' →
  ∃ new,
    imgCanvas st' = imgCanvas st ++ new ∧ (length new ≤ length frames)%nat.
Proof.
  revert st. induction frames as [|[lmList results] rest IH]; intros st Hrun.
  - simpl in Hrun. injection Hrun as <-. exists [].
    rewrite app_nil_r. split; [done | simpl; lia].
  - rewrite run_cons in Hrun.
    destruct (frame w lmList results st) as [st1|] eqn:Hframe; [|done].
    rewrite bind_Ok in Hrun.
    apply frame_canvas_grows in Hframe as (new1 & Hc1 & Hl1).
    apply IH in Hrun as (new2 & Hc2 & Hl2).
    exists (new1 ++ new2). rewrite Hc2, Hc1, <- app_assoc.
    split; [done|]. rewrite length_app. simpl. lia.
Qed.

Lemma run_canvas_grows_witness :
  ∃ new,
    imgCanvas (pen_at 20 20 [brush (10, 10) (10, 10); brush (10, 10) (20, 20)])
    = imgCanvas init ++ new
    ∧ (length new
       ≤ length [(pointing 10 10, None : option Results);
                 (pointing 20 20, None)])%nat.
Proof.
  apply (run_canvas_grows 1280
           [(pointing 10 10, None); (pointing 20 20, None)] init).
  vm_compute. reflexivity.
Defined.

(** ** The painter: colours and widths *)

Lemma frame_tools_ok w lmList results st st' :
  tools_ok st → frame w lmList results st = Ok st' → tools_ok st'.
Proof.
  intros [Hcol Hcanvas] Hframe.
  apply frame_effect_inv in Hframe as [->|(ix & iy & [|c Hc|])]; try done.
  split; [done|]. simpl. apply Forall_app. split; [done|].
  apply Forall_singleton. split; done.
Qed.

(** X12: the palette is never left.  If the current colour is one of the
    four palette colours and every stroke on the canvas has a palette colour
    and the width that goes with it (50 for black, the eraser, and 15
    otherwise), then the same holds after any session that does not raise;
    it holds in the initial state. *)
Theorem run_tools_ok w frames st st' :
  tools_ok st → run w frames st = Ok st' → tools_ok st'.
Proof.
  revert st. induction frames as [|[lmList results] rest IH]; intros st Hok Hrun.
  - simpl in Hrun. by injection Hrun as <-.
  - rewrite run_cons in Hrun.
    destruct (frame w lmList results st) as [st1|] eqn:Hframe; [|done].
    rewrite bind_Ok in Hrun. eapply IH; [|done].
    by eapply frame_tools_ok.
Qed.

Lemma init_tools_ok : tools_ok init.
Proof. split; [in_list | apply Forall_nil_2]. Qed.

Lemma run_tools_ok_witness :
  tools_ok
    (pen_at 20 20 [brush (10, 10) (10, 10); brush (10, 10) (20, 20)]).
Proof.
  apply (run_tools_ok 1280
           [(pointing 10 10, None); (pointing 20 20, None)] init).
  - exact init_tools_ok.
  - vm_compute. reflexivity.
Defined.

(** X13: a frame never both changes the colour and draws.  When the colour
    after a frame differs from the colour before, the canvas is as it was
    and the cursor is reset; when the canvas differs, the colour is as it
    was and exactly one stroke, in that colour, was added at the end. *)
Theorem frame_colour_or_stroke w lmList results st st' :
  frame w lmList results st = Ok st' →
  (current_color st' ≠ current_color st →
     imgCanvas st' = imgCanvas st ∧ xp st' = 0 ∧ yp st' = 0)
  ∧ (imgCanvas st' ≠ imgCanvas st →
     current_color st' = current_color st
     ∧ ∃ s, imgCanvas st' = imgCanvas st ++ [s]
         ∧ color s = current_color st
         ∧ pt2 s = (xp st', yp st')).
Proof.
  intros Hframe.
  apply frame_effect_inv in Hframe as [->|(ix & iy & [|c Hc|])];
    simpl; split; try done.
  intros _. split; [done|]. by eexists.
Qed.

Lemma frame_colour_or_stroke_witness :
  current_color (pen_at 10 10 [brush (10, 10) (10, 10)]) = current_color init
  ∧ ∃ s, imgCanvas (pen_at 10 10 [brush (10, 10) (10, 10)])
         = imgCanvas init ++ [s]
      ∧ color s = current_color init
      ∧ pt2 s = (xp (pen_at 10 10 [brush (10, 10) (10, 10)]),
                 yp (pen_at 10 10 [brush (10, 10) (10, 10)])).
Proof.
  refine (proj2 (frame_colour_or_stroke 1280 (pointing 10 10) None init
                   (pen_at 10 10 [brush (10, 10) (10, 10)]) _) _).
  - vm_compute. reflexivity.
  - discriminate.
Defined.

(** ** The painter: joined strokes *)

Lemma frame_draws_at w p fr st :
  draws_at p fr →
  frame w fr.1 fr.2 st
  = Ok {| xp := p.1; yp := p.2; current_color := current_color st;
          imgCanvas :=
            imgCanvas st ++
            [stroke_of st (if (xp st =? 0) && (yp st =? 0)
                           then p else (xp st, yp st)) p] |}.
Proof.
  destruct fr as [lmList results], p as [ix iy].
  intros (fingers & id & Hfingers & Hmode & H8 & Hlen). cbn [fst snd] in *.
  unfold frame. destruct lmList as [|lm0 rest]; [done|].
  rewrite Hfingers, bind_Ok. unfold list_getitem. rewrite H8, bind_Ok.
  destruct (lookup_lt_is_Some_2 (lm0 :: rest) 12) as [[[id12 mx] my] ->];
    [lia|].
  rewrite bind_Ok. by apply on_hand_Draw.
Qed.

(** X14: two Draw frames in a row, at [p] and then at [q], add two strokes,
    and the second one runs from [p] to [q], except when [p] is the pixel
    (0,0): that point reads as "pen up", and the second stroke is then the
    zero-length one at [q]. *)
Theorem two_draw_frames_join w fr1 fr2 (p q : Z * Z) st :
  draws_at p fr1 →
  draws_at q fr2 →
  ∃ first,
    run w [fr1; fr2] st
    = Ok {| xp := q.1; yp := q.2; current_color := current_color st;
            imgCanvas :=
              imgCanvas st ++
              [first;
               stroke_of st (if bool_decide (p = (0, 0)) then q else p) q] |}
    ∧ pt2 first = p.
Proof.
  intros H1 H2. destruct fr1 as [l1 r1], fr2 as [l2 r2].
  exists (stroke_of st (if (xp st =? 0) && (yp st =? 0)
                        then p else (xp st, yp st)) p).
  rewrite run_cons.
  pose proof (frame_draws_at w p (l1, r1) st H1) as F1.
  cbn [fst snd] in F1. rewrite F1, bind_Ok, run_cons.
  pose proof (λ st1, frame_draws_at w q (l2, r2) st1 H2) as F2.
  cbn [fst snd] in F2. rewrite F2, bind_Ok.
  cbn [run xp yp current_color imgCanvas]. split; [|reflexivity].
  rewrite <- app_assoc. cbn [app]. destruct p as [px py]. cbn [fst snd].
  destruct (decide ((px, py) = (0, 0))) as [Hp|Hp].
  - rewrite (bool_decide_eq_true_2 _ Hp). injection Hp as -> ->. reflexivity.
  - rewrite (bool_decide_eq_false_2 _ Hp).
    destruct (px =? 0) eqn:Hx, (py =? 0) eqn:Hy; try reflexivity.
    apply Z.eqb_eq in Hx, Hy. congruence.
Qed.

(** Closes [draws_at p (pointing .., None)] at given numbers. *)
Ltac pointing_draws :=
  exists [0; 1; 0; 0; 0], 8; cbn [fst snd];
  split; [vm_compute; reflexivity|];
  split; [reflexivity|];
  split; [reflexivity | vm_compute; lia].

Lemma two_draw_frames_join_witness :
  ∃ first,
    run 1280 [(pointing 0 0, None); (pointing 20 20, None)] init
    = Ok {| xp := 20; yp := 20; current_color := current_color init;
            imgCanvas :=
              imgCanvas init ++
              [first;
               stroke_of init
                 (if bool_decide ((0, 0) = (0, 0)) then (20, 20) else (0, 0))
                 (20, 20)] |}
    ∧ pt2 first = (0, 0).
Proof.
  apply (two_draw_frames_join 1280 (pointing 0 0, None) (pointing 20 20, None)
           (0, 0) (20, 20) init); pointing_draws.
Defined.

Lemma polyline_colour st1 st2 prev pts :
  current_color st1 = current_color st2 →
  polyline st1 prev pts = polyline st2 prev pts.
Proof.
  intros Hc. revert prev. induction pts as [|p pts IH]; intros prev; [done|].
  simpl. rewrite IH. f_equal. unfold stroke_of. by rewrite Hc.
Qed.

Lemma run_polyline w frames pts st :
  (xp st, yp st) ≠ (0, 0) →
  Forall2 draws_at pts frames →
  Forall (λ p, p ≠ (0, 0)) pts →
  run w frames st
  = Ok {| xp := (default (xp st, yp st) (last pts)).1;
          yp := (default (xp st, yp st) (last pts)).2;
          current_color := current_color st;
          imgCanvas := imgCanvas st ++ polyline st (xp st, yp st) pts |}.
Proof.
  intros Hset Hframes. revert st Hset.
  induction Hframes as [|p [lmList results] pts frames Hp _ IH];
    intros st Hset Hpts.
  - simpl. rewrite app_nil_r. by destruct st.
  - apply Forall_cons in Hpts as [Hp0 Hpts].
    rewrite run_cons.
    pose proof (frame_draws_at w p (lmList, results) st Hp) as F.
    cbn [fst snd] in F. rewrite F, bind_Ok. clear F.
    assert (Hnot : (xp st =? 0) && (yp st =? 0) = false).
    { apply andb_false_iff.
      destruct (xp st =? 0) eqn:Hx, (yp st =? 0) eqn:Hy; auto.
      apply Z.eqb_eq in Hx, Hy. exfalso. apply Hset. by rewrite Hx, Hy. }
    rewrite Hnot, IH; cbn [xp yp current_color imgCanvas];
      [| by destruct p | done].
    rewrite <- app_assoc. cbn [app polyline].
    rewrite last_cons. destruct p as [px py]. cbn [fst snd].
    f_equal. f_equal; [by destruct (last pts) ..|].
    f_equal. f_equal. by apply polyline_colour.
Qed.

(** X15: a run of Draw frames draws one connected line.  Starting with the
    pen up, Draw frames at the points [p0, p1, ..., pn], none of them the
    pixel (0,0), add the zero-length stroke at [p0] and then the segments
    [p0-p1], [p1-p2], ..., each starting where the one before ended, all in
    the current colour; the cursor ends at [pn]. *)
Theorem draw_frames_polyline w frames (p0 : Z * Z) pts st :
  xp st = 0 → yp st = 0 →
  Forall2 draws_at (p0 :: pts) frames →
  Forall (λ p, p ≠ (0, 0)) (p0 :: pts) →
  run w frames st
  = Ok {| xp := (default p0 (last pts)).1;
          yp := (default p0 (last pts)).2;
          current_color := current_color st;
          imgCanvas :=
            imgCanvas st ++ stroke_of st p0 p0 :: polyline st p0 pts |}.
Proof.
  intros Hx Hy Hframes Hpts.
  apply Forall2_cons_inv_l in Hframes as ([lmList results] & rest & Hp0 & Hrest & ->).
  apply Forall_cons in Hpts as [Hne Hpts].
  rewrite run_cons.
  pose proof (frame_draws_at w p0 (lmList, results) st Hp0) as F.
  cbn [fst snd] in F. rewrite F, bind_Ok. clear F.
  rewrite Hx, Hy. cbn [Z.eqb andb].
  rewrite (run_polyline w rest pts); cbn [xp yp current_color imgCanvas];
    [| by destruct p0 | done | done].
  destruct p0 as [px py]. cbn [fst snd].
  rewrite <- app_assoc. cbn [app].
  f_equal. f_equal. f_equal. f_equal. by apply polyline_colour.
Qed.

Lemma draw_frames_polyline_witness :
  run 1280 [(pointing 10 10, None); (pointing 20 20, None);
            (pointing 30 15, None)] init
  = Ok {| xp := (default (10, 10) (last [(20, 20); (30, 15)])).1;
          yp := (default (10, 10) (last [(20, 20); (30, 15)])).2;
          current_color := current_color init;
          imgCanvas :=
            imgCanvas init ++
            stroke_of init (10, 10) (10, 10)
            :: polyline init (10, 10) [(20, 20); (30, 15)] |}.
Proof.
  apply (draw_frames_polyline 1280
           [(pointing 10 10, None); (pointing 20 20, None);
            (pointing 30 15, None)] (10, 10) [(20, 20); (30, 15)] init);
    [reflexivity | reflexivity | |].
  - apply Forall2_cons; split; [pointing_draws|].
    apply Forall2_cons; split; [pointing_draws|].
    apply Forall2_cons; split; [pointing_draws|].
    by apply Forall2_nil.
  - repeat apply Forall_cons_2; try apply Forall_nil_2; discriminate.
Defined.

(** ** The painter: when a frame raises *)

Lemma frame_short w lmList results st :
  (0 < length lmList < 13)%nat → frame w lmList results st = Raise IndexError.
Proof.
  intros Hlen. unfold frame. destruct lmList as [|lm0 rest]; [simpl in Hlen; lia|].
  rewrite painter_fingersUp_vector, bind_Ok. unfold list_getitem.
  destruct ((lm0 :: rest) !! 8%nat) as [[[id8 ix] iy]|]; [|done].
  rewrite bind_Ok. rewrite (lookup_ge_None_2 (lm0 :: rest) 12) by lia. done.
Qed.

Lemma frame_full w lmList results st :
  (13 ≤ length lmList)%nat →
  ∃ id ix iy,
    lmList !! 8%nat = Some ((id, ix, iy) : Landmark)
    ∧ frame w lmList results st
      = on_hand w (finger_vector (lm_dict lmList) (get_handType results 0))
          ix iy st.
Proof.
  intros Hlen. unfold frame. destruct lmList as [|lm0 rest]; [simpl in Hlen; lia|].
  rewrite painter_fingersUp_vector, bind_Ok. unfold list_getitem.
  destruct (lookup_lt_is_Some_2 (lm0 :: rest) 8) as [[[id8 ix] iy] H8]; [lia|].
  destruct (lookup_lt_is_Some_2 (lm0 :: rest) 12) as [[[id12 mx] my] H12]; [lia|].
  exists id8, ix, iy. split; [done|]. by rewrite H8, H12.
Qed.

Lemma select_button_raises w ix iy e :
  select_button w ix iy = Raise e
  ↔ e = ZeroDivisionError ∧ iy < header_height ∧ w / 4 = 0.
Proof.
  unfold select_button, floordiv. change (Z.of_nat (length colors)) with 4.
  destruct (iy <? header_height) eqn:Hy.
  - apply Z.ltb_lt in Hy. destruct (w / 4 =? 0) eqn:Hw.
    + apply Z.eqb_eq in Hw. rewrite bind_Raise. split.
      * by intros [= <-].
      * by intros [-> _].
    + apply Z.eqb_neq in Hw. rewrite bind_Ok.
      destruct ((0 <=? ix / (w / 4)) && (ix / (w / 4) <? 4));
        (split; [done | by intros (_ & _ & ?)]).
  - apply Z.ltb_ge in Hy. split; [done | intros (_ & ? & _); lia].
Qed.

Lemma select_button_in_range w ix iy btn_idx :
  select_button w ix iy = Ok (Some btn_idx) → 0 ≤ btn_idx < 4.
Proof.
  unfold select_button, floordiv. change (Z.of_nat (length colors)) with 4.
  destruct (iy <? header_height); [|done].
  destruct (w / 4 =? 0); [done|]. rewrite bind_Ok.
  destruct (0 <=? ix / (w / 4)) eqn:Hlo; [|done].
  destruct (ix / (w / 4) <? 4) eqn:Hhi; [|done].
  intros [= <-]. apply Z.leb_le in Hlo. apply Z.ltb_lt in Hhi. done.
Qed.

Lemma on_hand_raises w fingers mode ix iy st e :
  resolveMode fingers = Ok mode →
  on_hand w fingers ix iy st = Raise e
  ↔ mode = Navigate ∧ e = ZeroDivisionError ∧ iy < header_height ∧ w / 4 = 0.
Proof.
  intros Hmode. destruct mode.
  - rewrite <- (select_button_raises w ix iy e). unfold on_hand. rewrite Hmode, bind_Ok.
    destruct (select_button w ix iy) as [[btn_idx|]|e'] eqn:Hsel.
    + rewrite bind_Ok. apply select_button_in_range in Hsel.
      destruct (lookup_lt_is_Some_2 colors (Z.to_nat btn_idx)) as [c Hc];
        [simpl; lia|].
      unfold list_getitem. rewrite Hc, bind_Ok.
      split; [intros [=] | intros [_ [=]]].
    + rewrite bind_Ok. split; [intros [=] | intros [_ [=]]].
    + rewrite bind_Raise. split; [by intros [= <-] | by intros [_ [= <-]]].
  - rewrite on_hand_Draw by done. split; [intros [=] | intros [[=] _]].
  - rewrite on_hand_Idle by done. split; [intros [=] | intros [[=] _]].
Qed.

(** X16: the only two ways a frame can raise.  It raises [IndexError]
    exactly when the landmark list has between 1 and 12 entries, and
    [ZeroDivisionError] exactly when the list has at least 13 entries, the
    frame is so narrow that a button is 0 pixels wide ([w // 4 = 0]), the
    mode is Navigate and the landmark at position 8 is above the header
    line.  It never raises a [KeyError]. *)
Theorem frame_raises w lmList results st e :
  frame w lmList results st = Raise e
  ↔ (e = IndexError ∧ (0 < length lmList < 13)%nat)
    ∨ (e = ZeroDivisionError
       ∧ (13 ≤ length lmList)%nat
       ∧ w / 4 = 0
       ∧ resolveMode (finger_vector (lm_dict lmList) (get_handType results 0))
         = Ok Navigate
       ∧ ∃ id ix iy,
           lmList !! 8%nat = Some ((id, ix, iy) : Landmark)
           ∧ iy < header_height).
Proof.
  destruct (decide (length lmList = 0%nat)) as [Hnil|Hne].
  { apply nil_length_inv in Hnil as ->. simpl. split; [done|].
    intros [[_ ?]|(_ & ? & _)]; simpl in *; lia. }
  destruct (decide (length lmList < 13)%nat) as [Hshort|Hfull].
  { rewrite frame_short by lia. split.
    - intros [= <-]. left. split; [done | lia].
    - intros [[-> _]|(_ & ? & _)]; [done | lia]. }
  destruct (frame_full w lmList results st) as (id & ix & iy & H8 & ->); [lia|].
  destruct (resolveMode_finger_vector (lm_dict lmList) (get_handType results 0))
    as [mode Hmode].
  rewrite (on_hand_raises _ _ mode) by done. rewrite Hmode. split.
  - intros (-> & -> & Hy & Hw). right.
    split; [done|]. split; [lia|]. split; [done|]. split; [done|]. eauto.
  - intros [[_ ?]|(-> & _ & Hw & [= <-] & id' & ix' & iy' & H8' & Hy)]; [lia|].
    rewrite H8 in H8'. injection H8' as <- <- <-. done.
Qed.

Lemma frame_raises_witness :
  frame 3 (peace 1 50) None init = Raise ZeroDivisionError.
Proof.
  apply (frame_raises 3 (peace 1 50) None init ZeroDivisionError). right.
  split; [reflexivity|]. split; [vm_compute; lia|]. split; [reflexivity|].
  split; [vm_compute; reflexivity|].
  exists 8, 1, 50. split; [reflexivity | reflexivity].
Defined.

(** ** The painter: picking a tool, then drawing *)

(** X17: a colour picked in the header is the colour of the next stroke.
    In a frame at least four pixels wide, a Navigate frame whose point is
    above the header line and over one of the four buttons, followed by a
    Draw frame at [p], leaves the canvas with one more stroke: the
    zero-length stroke at [p], in the colour of that button, 50 wide when
    the button is the black eraser and 15 wide otherwise. *)
Theorem select_then_draw w fingers1 fingers2 ix iy (p : Z * Z) st :
  4 ≤ w →
  resolveMode fingers1 = Ok Navigate →
  iy < header_height →
  0 ≤ ix < 4 * (w / 4) →
  resolveMode fingers2 = Ok Draw →
  ∃ c,
    colors !! Z.to_nat (ix / (w / 4)) = Some c
    ∧ on_hand w fingers1 ix iy st ≫= on_hand w fingers2 p.1 p.2
      = Ok {| xp := p.1; yp := p.2; current_color := c;
              imgCanvas :=
                imgCanvas st ++
                [{| pt1 := p; pt2 := p; color := c;
                    thickness := if bool_decide (c = (0, 0, 0))
                                 then 50 else 15 |}] |}.
Proof.
  intros Hw Hnav Hy Hx Hdraw.
  assert (Hbw : 0 < w / 4)
    by (assert (1 ≤ w / 4) by (apply Z.div_le_lower_bound; lia); lia).
  assert (Hidx : 0 ≤ ix / (w / 4) < 4).
  { split; [apply Z.div_pos; lia | apply Z.div_lt_upper_bound; lia]. }
  destruct (on_hand_Navigate w fingers1 ix iy st Hw Hnav) as (sel & Hsel & Hon).
  rewrite select_button_eq in Hsel by done.
  rewrite (proj2 (Z.ltb_lt _ _) Hy), (proj2 (Z.leb_le _ _) (proj1 Hidx)),
    (proj2 (Z.ltb_lt _ _) (proj2 Hidx)) in Hsel.
  injection Hsel as <-. destruct Hon as (c & Hc & ->).
  exists c. split; [done|]. rewrite bind_Ok, on_hand_Draw by done.
  destruct p as [px py]. reflexivity.
Qed.

Lemma select_then_draw_witness :
  ∃ c,
    colors !! Z.to_nat (1000 / (1280 / 4)) = Some c
    ∧ on_hand 1280 [0; 1; 1; 0; 0] 1000 50 init
        ≫= on_hand 1280 [0; 1; 0; 0; 0] (30, 300).1 (30, 300).2
      = Ok {| xp := (30, 300).1; yp := (30, 300).2; current_color := c;
              imgCanvas :=
                imgCanvas init ++
                [{| pt1 := (30, 300); pt2 := (30, 300); color := c;
                    thickness := if bool_decide (c = (0, 0, 0))
                                 then 50 else 15 |}] |}.
Proof.
  apply (select_then_draw 1280 [0; 1; 1; 0; 0] [0; 1; 0; 0; 0] 1000 50
           (30, 300) init).
  - lia.
  - reflexivity.
  - unfold header_height. lia.
  - vm_compute. split; [discriminate | reflexivity].
  - reflexivity.
Defined.

(** ** From the detector to the classifiers and the painter *)

Lemma numbered_required (hand : list (Z * Z)) (k : Z) :
  (21 ≤ length hand)%nat → k ∈ required_ids →
  is_Some (lm_dict (numbered hand) !! k).
Proof.
  intros Hlen Hk.
  assert (Hk' : 0 ≤ k < 21).
  { unfold required_ids in Hk. rewrite !elem_of_cons, elem_of_nil in Hk.
    destruct Hk as [->|[->|[->|[->|[->|[->|[->|[->|[->|[->|[]]]]]]]]]]]; lia. }
  rewrite <- (Z2Nat.id k) by lia. rewrite numbered_dict.
  apply lookup_lt_is_Some_2. lia.
Qed.

(** X18: on the landmark list that [findPosition] returns for a hand of at
    least 21 landmarks, nothing raises: the three classifiers return the
    same vector, and a painter frame at least four pixels wide succeeds.
    The point the painter reads at position 8 of the list is the landmark
    with id 8 that the classifiers took for the index fingertip. *)
Theorem detected_hand_is_safe hands handNo lmList bbox results w st :
  HandTrackingModule.findPosition hands handNo = Done (lmList, bbox) →
  (21 ≤ length lmList)%nat →
  4 ≤ w →
  ∃ v ix iy st',
    Main.countFingers lmList results 0 = Ok (sum v, v)
    ∧ VirtualMouse.countFingers lmList results 0 = Ok (sum v, v)
    ∧ fingersUpFromLm lmList results 0 = Ok v
    ∧ lm_dict lmList !! 8 = Some (ix, iy)
    ∧ frame w lmList results st = on_hand w v ix iy st
    ∧ frame w lmList results st = Ok st'.
Proof.
  intros Hfind Hlen Hw.
  apply findPosition_Done in Hfind
    as [(_ & -> & _)|(hand & ? & ? & ? & ? & _ & _ & -> & _)];
    [simpl in Hlen; lia|].
  rewrite numbered_length in Hlen.
  exists (finger_vector (lm_dict (numbered hand)) (get_handType results 0)).
  destruct (frame_full w (numbered hand) results st)
    as (id & ix & iy & H8 & Hframe); [rewrite numbered_length; lia|].
  rewrite numbered_lookup in H8.
  destruct (hand !! 8%nat) as [[cx cy]|] eqn:Hhand; [|done].
  injection H8 as <- <- <-.
  assert (∃ st', on_hand w
            (finger_vector (lm_dict (numbered hand)) (get_handType results 0))
            cx cy st = Ok st') as [st' Hon].
  { destruct (resolveMode_finger_vector (lm_dict (numbered hand))
                (get_handType results 0)) as [mode Hmode].
    destruct (on_hand _ _ _ _ _) as [st'|e] eqn:Hon; [by eexists|].
    apply (on_hand_raises _ _ mode) in Hon as (_ & _ & _ & Hzero); [|done].
    assert (1 ≤ w / 4) by (apply Z.div_le_lower_bound; lia). lia. }
  exists cx, cy, st'.
  split; [apply main_countFingers_vector; intros k Hk;
          by apply numbered_required|].
  split; [apply mouse_countFingers_vector; intros Hnil;
          apply (f_equal length) in Hnil; rewrite numbered_length in Hnil;
          simpl in Hnil; lia|].
  split; [apply painter_fingersUp_vector|].
  split; [change 8 with (Z.of_nat 8); by rewrite numbered_dict|].
  split; [done|]. by rewrite Hframe.
Qed.

Lemma detected_hand_is_safe_witness :
  ∃ v ix iy st',
    Main.countFingers open_hand right_hand 0 = Ok (sum v, v)
    ∧ VirtualMouse.countFingers open_hand right_hand 0 = Ok (sum v, v)
    ∧ fingersUpFromLm open_hand right_hand 0 = Ok v
    ∧ lm_dict open_hand !! 8 = Some (ix, iy)
    ∧ frame 1280 open_hand right_hand init = on_hand 1280 v ix iy init
    ∧ frame 1280 open_hand right_hand init = Ok st'.
Proof.
  apply (detected_hand_is_safe [open_hand_positions] 0 open_hand
           (Some (190, 175, 366, 400)) right_hand 1280 init).
  - vm_compute. reflexivity.
  - vm_compute. lia.
  - lia.
Defined.

(** ** The trainer: one count per curl *)

Section PoseCounting.

Import PoseModule.
Local Open Scope Q_scope.

(** The three cases of one update. *)
Lemma count_rep_cases (angle : Q) (self : PoseDetector) :
  (160 < angle →
     (count_rep angle self).1
     = {| curl_count := curl_count self; dir := 0%Z |})
  ∧ (angle <= 160 → angle < 30 → dir self = 0%Z →
     (count_rep angle self).1
     = {| curl_count := curl_count self + (1 # 2); dir := 1%Z |})
  ∧ (angle <= 160 → ¬ (angle < 30 ∧ dir self = 0%Z) →
     (count_rep angle self).1 = self).
Proof.
  unfold count_rep.
  destruct (Qltb 160 angle) eqn:Hdown.
  - apply Qltb_lt in Hdown.
    assert (Qltb angle 30 = false) as -> by (apply Qltb_ge; lra).
    simpl. split; [done|]. split; intros; lra.
  - apply Qltb_ge in Hdown. split; [intros; lra|].
    destruct (Qltb angle 30) eqn:Hup; simpl.
    + apply Qltb_lt in Hup.
      destruct (dir self =? 0)%Z eqn:Hdir; simpl.
      * apply Z.eqb_eq in Hdir. split; [done | tauto].
      * apply Z.eqb_neq in Hdir. split; [done|]. done.
    + apply Qltb_ge in Hup. split; [intros; lra | done].
Qed.

Lemma count_reps_cons (angle : Q) (angles : list Q) (self : PoseDetector) :
  count_reps (angle :: angles) self
  = count_reps angles (count_rep angle self).1.
Proof. reflexivity. Qed.

Lemma count_reps_app (l1 l2 : list Q) (self : PoseDetector) :
  count_reps (l1 ++ l2) self = count_reps l2 (count_reps l1 self).
Proof. unfold count_reps. apply foldl_app. Qed.

(** While the arm is up and no sample exceeds 160, the counter does not
    move. *)
Lemma count_reps_up_stays (angles : list Q) (self : PoseDetector) :
  Forall (λ a, a <= 160) angles → dir self ≠ 0%Z →
  count_reps angles self = self.
Proof.
  intros Hall Hup. induction Hall as [|a angles Ha _ IH]; [done|].
  rewrite count_reps_cons.
  destruct (count_rep_cases a self) as (_ & _ & Hstay).
  rewrite Hstay; [exact IH | exact Ha | tauto].
Qed.

(** X19: no double counting.  Over samples that never exceed 160 the count
    goes up by at most one half, however often the angle dips below 30, and
    not at all if the direction flag was already up. *)
Theorem count_once_until_down (angles : list Q) (self : PoseDetector) :
  Forall (λ a, a <= 160) angles →
  curl_count (count_reps angles self) <= curl_count self + (1 # 2)
  ∧ (dir self ≠ 0%Z →
     curl_count (count_reps angles self) = curl_count self).
Proof.
  intros Hall. split; [|by intros Hup; rewrite count_reps_up_stays].
  induction Hall as [|a angles Ha Hall IH] in self |- *; [simpl; lra|].
  cbv beta in Ha. rewrite count_reps_cons.
  destruct (count_rep_cases a self) as (_ & Hup & Hstay).
  destruct (Qlt_le_dec a 30) as [Hlt|Hge];
    [destruct (Z.eq_dec (dir self) 0%Z) as [Hd|Hd]|].
  - rewrite Hup by done. rewrite count_reps_up_stays by done. simpl. lra.
  - rewrite Hstay by tauto. apply IH.
  - rewrite Hstay by (first [exact Ha | intros [? _]; lra]). apply IH.
Qed.

Lemma count_once_until_down_witness :
  curl_count (count_reps [20; 90; 10; 25] new_detector)
    <= curl_count new_detector + (1 # 2).
Proof.
  apply (proj1 (count_once_until_down [20; 90; 10; 25] new_detector
                  ltac:(repeat constructor; discriminate))).
Defined.

(** X20: one curl, one half.  A sample above 160, then any samples that do
    not exceed 160, then a sample below 30, add exactly one half to the
    count, whatever the counter was before. *)
Theorem one_curl_counts_one_half (down : Q) (between : list Q) (up : Q)
    (self : PoseDetector) :
  160 < down →
  Forall (λ a, a <= 160) between →
  up < 30 →
  curl_count (count_reps (down :: between ++ [up]) self)
  == curl_count self + (1 # 2).
Proof.
  intros Hdown Hbetween Hup.
  rewrite count_reps_cons.
  destruct (count_rep_cases down self) as (Hreset & _ & _).
  rewrite Hreset by exact Hdown. clear Hreset.
  set (self0 := {| curl_count := curl_count self; dir := 0%Z |}).
  change (curl_count self) with (curl_count self0).
  assert (Hdir0 : dir self0 = 0%Z) by done.
  clearbody self0. rewrite count_reps_app.
  induction Hbetween as [|a between Ha Hall IH] in self0, Hdir0 |- *.
  - simpl. destruct (count_rep_cases up self0) as (_ & Hcount & _).
    rewrite Hcount; [simpl; reflexivity | lra | exact Hup | exact Hdir0].
  - cbv beta in Ha. rewrite (count_reps_cons a between).
    destruct (count_rep_cases a self0) as (_ & Hcount & Hstay).
    destruct (Qlt_le_dec a 30) as [Hlt|Hge].
    + rewrite Hcount; [|exact Ha | exact Hlt | exact Hdir0].
      rewrite (count_reps_up_stays between); [|exact Hall | done].
      simpl.
      destruct (count_rep_cases up
        {| curl_count := curl_count self0 + (1 # 2); dir := 1%Z |})
        as (_ & _ & Hsame).
      rewrite Hsame; [simpl; reflexivity | lra | by intros [_ ?]].
    + rewrite Hstay; [by apply IH | exact Ha | intros [? _]; lra].
Qed.

Lemma one_curl_counts_one_half_witness :
  curl_count (count_reps (170 :: [90; 20; 90; 25] ++ [10]) new_detector)
  == curl_count new_detector + (1 # 2).
Proof.
  apply (one_curl_counts_one_half 170 [90; 20; 90; 25] 10 new_detector).
  - reflexivity.
  - repeat constructor; discriminate.
  - reflexivity.
Defined.

(** ** The trainer: the number on the screen *)

Lemma py_int_halves (q : Q) (n : nat) :
  q == inject_Z (Z.of_nat n) / 2 → py_int q = (Z.of_nat n / 2)%Z.
Proof.
  destruct q as [a d]. unfold Qeq, py_int, Qdiv, Qmult, Qinv, inject_Z.
  simpl. rewrite Z.mul_1_r. intros Hq.
  change (Z.pos (1 * 2)) with 2%Z in Hq.
  assert (Ha : (0 ≤ a)%Z) by nia.
  rewrite Z.quot_div_nonneg by lia.
  rewrite <- (Z.div_mul_cancel_r a (Z.pos d) 2) by lia.
  rewrite Hq.
  replace (Z.of_nat n * Z.pos d)%Z with (Z.pos d * Z.of_nat n)%Z by lia.
  by rewrite Z.div_mul_cancel_l by lia.
Qed.

Lemma count_rep_halves (angle : Q) (self : PoseDetector) (n : nat) :
  curl_count self == inject_Z (Z.of_nat n) / 2 →
  ∃ m : nat,
    (n ≤ m ≤ S n)%nat
    ∧ curl_count (count_rep angle self).1 == inject_Z (Z.of_nat m) / 2.
Proof.
  intros Hn.
  destruct (count_rep_step angle self) as (Hup & Hstay & _).
  destruct (Qlt_le_dec angle 30) as [Hlt|Hge];
    [destruct (Z.eq_dec (dir self) 0%Z) as [Hd|Hd]|].
  - exists (S n). split; [lia|].
    destruct Hup as [-> _]; [done|]. rewrite Hn, Nat2Z.inj_succ.
    unfold Z.succ. rewrite inject_Z_plus. field.
  - exists n. split; [lia|]. rewrite Hstay by tauto. exact Hn.
  - exists n. split; [lia|]. rewrite Hstay by (intros [? _]; lra). exact Hn.
Qed.

(** X21: the count is a whole number of halves, at most one per sample, and
    the number written on the image is that number of halves halved and
    rounded down: after any samples from a new detector there is [n], not
    above the number of samples, with count [n / 2] and display
    [n // 2]. *)
Theorem displayed_curls_halves (angles : list Q) :
  ∃ n : nat,
    (n ≤ length angles)%nat
    ∧ curl_count (count_reps angles new_detector)
      == inject_Z (Z.of_nat n) / 2
    ∧ displayed_curls (count_reps angles new_detector) = (Z.of_nat n / 2)%Z.
Proof.
  assert (Hgen : ∀ (self : PoseDetector) (k : nat),
            curl_count self == inject_Z (Z.of_nat k) / 2 →
            ∃ n : nat, (k ≤ n ≤ k + length angles)%nat
              ∧ curl_count (count_reps angles self)
                == inject_Z (Z.of_nat n) / 2).
  { induction angles as [|a angles IH]; intros self k Hk.
    - exists k. split; [simpl; lia | exact Hk].
    - rewrite count_reps_cons.
      destruct (count_rep_halves a self k Hk) as (m & Hm & Hcount).
      destruct (IH _ m Hcount) as (n & Hn & Hfinal).
      exists n. split; [simpl; lia | exact Hfinal]. }
  destruct (Hgen new_detector 0%nat) as (n & Hn & Hcount); [reflexivity|].
  exists n. split; [lia|]. split; [exact Hcount|].
  by apply py_int_halves.
Qed.

(** Three curls: the count is 3/2 and the screen shows 1. *)
Example three_curls_show_one :
  curl_count (count_reps [170; 20; 170; 20; 170; 20] new_detector) == 3 # 2
  ∧ displayed_curls (count_reps [170; 20; 170; 20; 170; 20] new_detector)
    = 1%Z.
Proof. split; reflexivity. Qed.

(** X22: the logged stage follows the counter.  The stage is "Up" exactly on
    the samples that change the count, "Down" exactly on the samples above
    160, and "Middle" on all others: an arm held up is logged as "Up" once
    and as "Middle" from then on. *)
Theorem stage_follows_count (angle : Q) (self : PoseDetector) :
  ((count_rep angle self).2 = "Up"%string
   ↔ ¬ curl_count (count_rep angle self).1 == curl_count self)
  ∧ ((count_rep angle self).2 = "Down"%string ↔ 160 < angle)
  ∧ ((count_rep angle self).2 = "Middle"%string
     ↔ angle <= 160 ∧ ¬ (angle < 30 ∧ dir self = 0%Z)).
Proof.
  unfold count_rep.
  destruct (Qltb 160 angle) eqn:Hdown.
  - apply Qltb_lt in Hdown.
    assert (Qltb angle 30 = false) as -> by (apply Qltb_ge; lra).
    simpl. split; [split; [done | intros H; exfalso; apply H; reflexivity]|].
    split; [done|]. split; [done | intros [? _]; lra].
  - apply Qltb_ge in Hdown.
    destruct (Qltb angle 30) eqn:Hup; simpl.
    + apply Qltb_lt in Hup.
      destruct (dir self =? 0)%Z eqn:Hdir; simpl.
      * apply Z.eqb_eq in Hdir.
        split; [split; [intros _ H; lra | done]|].
        split; [split; [done | intros; lra]|].
        split; [done | intros [_ H]; tauto].
      * apply Z.eqb_neq in Hdir.
        split; [split; [done | intros H; exfalso; apply H; reflexivity]|].
        split; [split; [done | intros; lra]|].
        split; [intros _; split; [done | tauto] | done].
    + apply Qltb_ge in Hup.
      split; [split; [done | intros H; exfalso; apply H; reflexivity]|].
      split; [split; [done | intros; lra]|].
      split; [intros _; split; [done | intros [? _]; lra] | done].
Qed.

(** ** The trainer: the angle *)


(** [findAngle] never lowers the count, whatever the angle function is. *)
Lemma findAngle_at_monotone (degrees_between : Z * Z → Z * Z → Z * Z → Q)
    (lmList : list Landmark) (p1 p2 p3 : nat) (self self' : PoseDetector)
    angle row :
  findAngle_at degrees_between lmList p1 p2 p3 self = Ok (angle, self', row) →
  curl_count self <= curl_count self'.
Proof.
  unfold findAngle_at, list_getitem.
  destruct lmList as [|lm0 rest]; [intros [= _ <- _]; lra|].
  destruct ((lm0 :: rest) !! p1) as [[[i1 x1] y1]|]; [|done].
  destruct ((lm0 :: rest) !! p2) as [[[i2 x2] y2]|]; [|done].
  destruct ((lm0 :: rest) !! p3) as [[[i3 x3] y3]|]; [|done].
  rewrite !bind_Ok. cbv zeta. unfold findAngle.
  pose proof (count_rep_monotone
                (normalize (degrees_between (x1, y1) (x2, y2) (x3, y3)))
                self) as Hmono.
  destruct (count_rep _ self) as [self1 stage]. by intros [= _ <- _].
Qed.

Section Angle.

(** The angle in degrees between the two arms at the middle point, as
    [atan2] gives it: any function into the range of a difference of two
    [atan2] values. *)
Variable degrees_between : Z * Z → Z * Z → Z * Z → Q.
Hypothesis degrees_between_range :
  ∀ a b c, -360 <= degrees_between a b c <= 360.


End Angle.


Lemma stage_follows_count_witness :
  (count_rep 20 new_detector).2 = "Up"%string.
Proof.
  apply (proj1 (stage_follows_count 20 new_detector)). discriminate.
Defined.

End PoseCounting.

(** ** The trainer's loop *)

Section Sessions.

Variable degrees_between : Z * Z → Z * Z → Z * Z → Q.

(** X25: [run_trainer] never returns ['quit'].  When its loop returns, the
    value is ['back'], the pass it returned on is the first one whose key
    was 'q', the passes after it are handed back untouched, and the count
    has not gone down. *)
Theorem trainer_loop_returns_back (ticks : list Tick)
    (self self' : PoseModule.PoseDetector) (res : string) (rest : list Tick) :
  PoseModule.trainer_loop degrees_between ticks self
    = Returned res self' rest →
  res = "back"%string
  ∧ (∃ used t,
       ticks = used ++ t :: rest
       ∧ pressed t = ord "q"%char
       ∧ Forall (not_pressed "q"%char) used)
  ∧ (PoseModule.curl_count self <= PoseModule.curl_count self')%Q.
Proof.
  revert self. induction ticks as [|t ticks IH]; intros self Hloop; [done|].
  simpl in Hloop.
  destruct (success t); simpl in Hloop; [|done].
  set (updated :=
         match PoseModule.findPosition (pose_landmarks t) with
         | [] => Ok self
         | _ => _
         end) in Hloop.
  assert (Hupdated : ∀ self1, updated = Ok self1 →
            (PoseModule.curl_count self <= PoseModule.curl_count self1)%Q).
  { subst updated. intros self1.
    destruct (PoseModule.findPosition (pose_landmarks t)) as [|lm0 lms] eqn:Hlm.
    - intros [= <-]. lra.
    - destruct (PoseModule.findAngle_at degrees_between (lm0 :: lms)
                  12 14 16 self) as [[[angle self2] row]|e] eqn:Hat; [|done].
      rewrite bind_Ok. intros [= <-]. by eapply findAngle_at_monotone. }
  destruct updated as [self1|e]; [|done].
  specialize (Hupdated self1 eq_refl).
  destruct (pressed t =? ord "q"%char) eqn:Hkey.
  - injection Hloop as <- <- <-. apply Z.eqb_eq in Hkey.
    split; [done|]. split; [|done]. exists [], t. by split.
  - apply Z.eqb_neq in Hkey.
    apply IH in Hloop as (-> & (used & u & -> & Hq & Hused) & Hmono).
    split; [done|]. split; [|lra].
    exists (t :: used), u. split; [done|]. split; [done|].
    by apply Forall_cons_2.
Qed.

(** ** The launcher *)

Lemma mouse_loop_rest ticks printed res printed' rest :
  VirtualMouse.mouse_loop ticks printed = Returned res printed' rest →
  (length rest < length ticks)%nat.
Proof.
  revert printed. induction ticks as [|t ticks IH]; intros printed; [done|].
  simpl. destruct (success t); simpl; [|intros [= _ _ <-]; lia].
  destruct (HandTrackingModule.findHands _); [|done].
  destruct (HandTrackingModule.findPosition _ 0) as [[lmList bbox]|]; [|done].
  destruct (VirtualMouse.countFingers _ _ 0) as [[total fingers]|]; [|done].
  destruct (pressed t =? ord "b"%char); [intros [= _ _ <-]; lia|].
  destruct (pressed t =? ord "q"%char); [intros [= _ _ <-]; lia|].
  intros Hloop. apply IH in Hloop. lia.
Qed.

Lemma painter_loop_rest ticks st canvas res s rest :
  painter_loop ticks st canvas = Returned res s rest →
  (length rest < length ticks)%nat.
Proof.
  revert st canvas.
  induction ticks as [|t ticks IH]; intros st canvas; [done|].
  simpl. destruct (success t); simpl; [|intros [= _ _ <-]; lia].
  destruct (HandTrackingModule.findHands _); [|done].
  destruct (HandTrackingModule.findPosition _ 0) as [[lmList bbox]|]; [|done].
  destruct (frame _ _ _ st) as [st1|]; [|done].
  destruct (merge _ t); [|done].
  destruct (pressed t =? ord "b"%char); [intros [= _ _ <-]; lia|].
  destruct (pressed t =? ord "q"%char); [intros [= _ _ <-]; lia|].
  intros Hloop. apply IH in Hloop. lia.
Qed.

Lemma trainer_loop_rest ticks self res self' rest :
  PoseModule.trainer_loop degrees_between ticks self
    = Returned res self' rest →
  (length rest < length ticks)%nat ∧ res = "back"%string.
Proof.
  revert self. induction ticks as [|t ticks IH]; intros self; [done|].
  simpl. destruct (success t); simpl; [|done].
  destruct (match PoseModule.findPosition (pose_landmarks t) with
            | [] => Ok self
            | _ => _
            end) as [self1|]; [|done].
  destruct (pressed t =? ord "q"%char); [intros [= <- _ <-]; split; [lia|done]|].
  intros Hloop. apply IH in Hloop as [? ?]. split; [lia | done].
Qed.

(** The menu loop does not depend on the fuel, once there is enough. *)
Lemma launcher_loop_fuel (n m : nat) (ticks : list Tick) :
  (length ticks ≤ n)%nat → (length ticks ≤ m)%nat →
  Launcher.launcher_loop degrees_between n ticks
  = Launcher.launcher_loop degrees_between m ticks.
Proof.
  revert m ticks. induction n as [|n IH]; intros m ticks Hn Hm.
  - destruct ticks; [|simpl in Hn; lia]. by destruct m.
  - destruct m as [|m]; [destruct ticks; [done | simpl in Hm; lia]|].
    destruct ticks as [|t rest]; [done|]. simpl in Hn, Hm. simpl.
    destruct (success t); simpl; [|done].
    destruct (pressed t =? ord "1"%char).
    { destruct (VirtualMouse.run_virtual_mouse rest) as [|res s rest'|] eqn:Happ;
        [done| |done].
      apply mouse_loop_rest in Happ.
      destruct (String.eqb res "quit"); [done|]. apply IH; lia. }
    destruct (pressed t =? ord "2"%char).
    { destruct (run_virtual_painter rest) as [|res s rest'|] eqn:Happ;
        [done| |done].
      apply painter_loop_rest in Happ.
      destruct (String.eqb res "quit"); [done|]. apply IH; lia. }
    destruct (pressed t =? ord "3"%char).
    { destruct (PoseModule.run_trainer degrees_between rest)
        as [|res s rest'|] eqn:Happ; [done| |done].
      apply trainer_loop_rest in Happ as [Happ _].
      destruct (String.eqb res "quit"); [done|]. apply IH; lia. }
    destruct (pressed t =? ord "q"%char); [done|]. apply IH; lia.
Qed.

Lemma launcher_fuel (n : nat) (ticks : list Tick) :
  (length ticks ≤ n)%nat →
  Launcher.launcher_loop degrees_between n ticks
  = Launcher.launcher degrees_between ticks.
Proof. intros Hn. by apply launcher_loop_fuel. Qed.

(** X26: leaving a demo.  From the menu, '1', '2' and '3' start the mouse,
    the painter and the trainer on the following passes.  When the mouse or
    the painter returns ['quit'] the launcher ends, and when it returns
    ['back'] the menu goes on with the passes the demo left.  When the
    trainer returns, the menu always goes on: 'q' pressed in the trainer
    leads back to the menu and does not end the launcher.  'q' in the menu
    ends it. *)
Theorem launcher_after_demo (t : Tick) (ticks : list Tick) :
  success t = true →
  (pressed t = ord "1"%char →
     ∀ res s rest,
       VirtualMouse.run_virtual_mouse ticks = Returned res s rest →
       Launcher.launcher degrees_between (t :: ticks)
       = if String.eqb res "quit" then Returned tt tt rest
         else Launcher.launcher degrees_between rest)
  ∧ (pressed t = ord "2"%char →
     ∀ res s rest,
       run_virtual_painter ticks = Returned res s rest →
       Launcher.launcher degrees_between (t :: ticks)
       = if String.eqb res "quit" then Returned tt tt rest
         else Launcher.launcher degrees_between rest)
  ∧ (pressed t = ord "3"%char →
     ∀ res s rest,
       PoseModule.run_trainer degrees_between ticks = Returned res s rest →
       Launcher.launcher degrees_between (t :: ticks)
       = Launcher.launcher degrees_between rest)
  ∧ (pressed t = ord "q"%char →
     Launcher.launcher degrees_between (t :: ticks) = Returned tt tt ticks).
Proof.
  intros Hsuccess. unfold Launcher.launcher at 1 3 5 7.
  cbn [length Launcher.launcher_loop]. rewrite Hsuccess. cbn [negb].
  split; [|split; [|split]].
  - intros -> res s rest Happ. cbn [Z.eqb ord]. rewrite Z.eqb_refl, Happ.
    apply mouse_loop_rest in Happ.
    destruct (String.eqb res "quit"); [done|]. apply launcher_fuel. lia.
  - intros -> res s rest Happ.
    change (ord "2"%char =? ord "1"%char) with false.
    rewrite Z.eqb_refl, Happ.
    apply painter_loop_rest in Happ.
    destruct (String.eqb res "quit"); [done|]. apply launcher_fuel. lia.
  - intros -> res s rest Happ.
    change (ord "3"%char =? ord "1"%char) with false.
    change (ord "3"%char =? ord "2"%char) with false.
    rewrite Z.eqb_refl, Happ.
    apply trainer_loop_rest in Happ as [Hlen ->].
    change (String.eqb "back" "quit") with false.
    apply launcher_fuel. lia.
  - intros ->.
    change (ord "q"%char =? ord "1"%char) with false.
    change (ord "q"%char =? ord "2"%char) with false.
    change (ord "q"%char =? ord "3"%char) with false.
    by rewrite Z.eqb_refl.
Qed.

End Sessions.

Lemma launcher_after_demo_witness :
  Launcher.launcher (λ _ _ _, 90%Q)
    (key_tick (ord "3"%char) :: [key_tick (ord "q"%char); key_tick (-1)])
  = Launcher.launcher (λ _ _ _, 90%Q) [key_tick (-1)].
Proof.
  apply (proj1 (proj2 (proj2
           (launcher_after_demo (λ _ _ _, 90%Q) (key_tick (ord "3"%char))
              [key_tick (ord "q"%char); key_tick (-1)] eq_refl)))
           eq_refl "back"%string PoseModule.new_detector [key_tick (-1)]).
  reflexivity.
Defined.

Lemma trainer_loop_returns_back_witness :
  "back"%string = "back"%string
  ∧ (∃ used t,
       [key_tick (-1); key_tick (ord "q"%char); key_tick (ord "b"%char)]
       = used ++ t :: [key_tick (ord "b"%char)]
       ∧ pressed t = ord "q"%char
       ∧ Forall (not_pressed "q"%char) used)
  ∧ (PoseModule.curl_count PoseModule.new_detector
     <= PoseModule.curl_count PoseModule.new_detector)%Q.
Proof.
  apply (trainer_loop_returns_back (λ _ _ _, 90%Q)
           [key_tick (-1); key_tick (ord "q"%char); key_tick (ord "b"%char)]
           PoseModule.new_detector PoseModule.new_detector "back"
           [key_tick (ord "b"%char)]).
  reflexivity.
Defined.

(** ** The painter's and the mouse's sessions *)








(** What the hypotheses of the session theorems keep out: a frame of
    another size than the canvas ends the painter with [cv2.error], and a
    hand of fewer than 21 landmarks ends either demo with the [ValueError]
    of [draw_landmarks]. *)
Example painter_loop_resized_frame :
  painter_loop
    [key_tick (-1);
     {| success := true; height := 480; width := 640;
        multi_hand_landmarks := []; hand_results := None;
        pose_landmarks := []; waitKey := -1 |}] init None
  = Crashed Cv2Error.
Proof. vm_compute. reflexivity. Qed.

Example loops_short_hand :
  painter_loop
    [{| success := true; height := 720; width := 1280;
        multi_hand_landmarks := [[(10, 10); (20, 20); (30, 30)]];
        hand_results := None; pose_landmarks := []; waitKey := -1 |}]
    init None
  = Crashed ValueError
  ∧ VirtualMouse.mouse_loop
      [{| success := true; height := 720; width := 1280;
          multi_hand_landmarks := [[(10, 10); (20, 20); (30, 30)]];
          hand_results := None; pose_landmarks := []; waitKey := -1 |}] []
    = Crashed ValueError.
Proof. split; vm_compute; reflexivity. Qed.


